(** * Analyst Tools: a shallow embedding of [analyst-tools.py]

    The development follows the source file top to bottom: the Python and
    pandas primitives the tools rely on ([str.lower], truthiness, insertion
    ordered dictionaries, [Series.unique], [Series.sum], row-wise arithmetic,
    [groupby], stable sorting), the fuzzy matcher [process.extractOne], and
    then the tools [get_data], [compare_performance] and the two directory
    lookups.

    Modelling conventions.
    - Text is [string] (a sequence of bytes); [lower] folds the ASCII letters,
      which is all the membership tests of the source can observe.
    - The statements about which rows, names, keys and errors a tool
      yields, and in which order, are made over a frame whose amounts are
      exact rationals [Q], with the outcome of a row-wise division sorted
      into finite, infinite and NaN ([xnum]).
    - The statements that rest on the arithmetic itself are made over a
      second frame with typed cells (module [Np]): an [int64] column adds
      and subtracts with wrap-around at 64 bits, a [float64] column is
      IEEE binary64 (primitive floats: rounding, signed zeros, infinities,
      NaN), and a true division is always carried out in [float64].  The
      order in which numpy adds up a [float64] column is its own and stays
      a parameter ([fsum]).
    - Exceptions are values of [exn]; a tool returns a [result].
    - The similarity scorer of the fuzzy matcher is an external capability
      and is a parameter of the development ([similarity]). *)

From Stdlib Require Import List String Ascii Bool ZArith QArith Lia.
From Stdlib Require Import Permutation Sorted.
From Stdlib Require OrderedTypeEx.
From Stdlib Require Floats.
Import ListNotations.

Local Open Scope string_scope.
Local Open Scope list_scope.

(* ================================================================== *)
(** * Python primitives *)
(* ================================================================== *)

Module Py.

(** [str.lower] on the ASCII range. *)
Definition lower_ascii (c : ascii) : ascii :=
  let n := nat_of_ascii c in
  if (65 <=? n)%nat && (n <=? 90)%nat then ascii_of_nat (n + 32) else c.

Fixpoint lower (s : string) : string :=
  match s with
  | EmptyString => EmptyString
  | String c t => String (lower_ascii c) (lower t)
  end.

(** Truthiness of an [Optional[str]] argument: [None] and the empty string
    are falsy, everything else is truthy. *)
Definition truthy (s : option string) : bool :=
  match s with
  | Some (String _ _) => true
  | _ => false
  end.

(** [x in xs] for a list of strings. *)
Definition mem (x : string) (xs : list string) : bool :=
  existsb (String.eqb x) xs.

(** [', '.join(xs)]. *)
Fixpoint join (sep : string) (xs : list string) : string :=
  match xs with
  | [] => EmptyString
  | [x] => x
  | x :: t => x ++ sep ++ join sep t
  end.

(** Exceptions the tools can raise. *)
Inductive exn : Type :=
| ValueError (msg : string)
| KeyError (key : string)
| TypeError (msg : string).

Inductive result (A : Type) : Type :=
| Ok (a : A)
| Raise (e : exn).
Arguments Ok {A} a.
Arguments Raise {A} e.

Definition bind {A B : Type} (r : result A) (k : A -> result B) : result B :=
  match r with
  | Ok a => k a
  | Raise e => Raise e
  end.

Definition is_ok {A : Type} (r : result A) : bool :=
  match r with Ok _ => true | Raise _ => false end.

(** ** Dictionaries

    A Python [dict] keeps its keys in insertion order; assigning to a key
    that is already present replaces the value and leaves the key where it
    is. *)
Section Dict.
Context {V : Type}.

Definition dict : Type := list (string * V).

Fixpoint dict_set (k : string) (v : V) (d : dict) : dict :=
  match d with
  | [] => [(k, v)]
  | (k', v') :: t =>
      if String.eqb k' k then (k', v) :: t else (k', v') :: dict_set k v t
  end.

(** [d[k]], raising [KeyError(k)] when the key is missing. *)
Fixpoint dict_get (k : string) (d : dict) : result V :=
  match d with
  | [] => Raise (KeyError k)
  | (k', v) :: t => if String.eqb k' k then Ok v else dict_get k t
  end.

Definition keys (d : dict) : list string := map fst d.

(** [{k: src[k] for k in ks}], built key by key onto [acc]. *)
Fixpoint dict_comp (ks : list string) (src : dict) (acc : dict)
  : result dict :=
  match ks with
  | [] => Ok acc
  | k :: t =>
      bind (dict_get k src) (fun v => dict_comp t src (dict_set k v acc))
  end.

(** The comprehension as a pure fold, for keys that are all present. *)
Definition select (ks : list string) (src acc : dict) : dict :=
  fold_left
    (fun acc k =>
       match dict_get k src with
       | Ok v => dict_set k v acc
       | Raise _ => acc
       end)
    ks acc.
End Dict.
Arguments dict V : clear implicits.

(** ** Stable sorting

    [list.sort] and [sorted] are stable.  [before y x] says that [y] must
    come strictly before [x]; an element is inserted behind exactly the
    elements that must precede it, so equal elements keep their order. *)
Section StableSort.
Context {A : Type} (before : A -> A -> bool).

Fixpoint insert (x : A) (l : list A) : list A :=
  match l with
  | [] => [x]
  | y :: t => if before y x then y :: insert x t else x :: y :: t
  end.

Definition stable_sort (l : list A) : list A := fold_right insert [] l.
End StableSort.

(** [sorted(xs)] on strings. *)
Definition sorted (xs : list string) : list string :=
  stable_sort String.ltb xs.

(** [xs[:n]] for an integer [n > 0]. *)
Definition slice_to {A : Type} (n : Z) (xs : list A) : list A :=
  firstn (Z.to_nat n) xs.

End Py.
Export Py.

Notation "x <- r ;; k" := (bind r (fun x => k))
  (at level 61, r at next level, right associativity).
Notation "' p <- r ;; k" := (bind r (fun x => let p := x in k))
  (at level 61, p pattern, r at next level, right associativity).

(* ================================================================== *)
(** * pandas primitives *)
(* ================================================================== *)

Module Pd.

(** One record of [dataset.csv]. *)
Record Row : Type := mkRow {
  CustomerName : string;
  ProjectName : string;
  Revenue : Q;
  COGS : Q;
  OPEX : Q
}.

(** The frame read by [pd.read_csv].  [CustomerName], [ProjectName],
    [Revenue] and [COGS] are always there; [has_OPEX] records whether the
    file has an [OPEX] column.  When it has none, the [OPEX] field of the
    rows is never read ([col_OPEX] raises instead). *)
Record DataFrame : Type := mkDF {
  has_OPEX : bool;
  rows : list Row
}.

(** [df[c]] for a column that is always present. *)
Definition col {A : Type} (f : Row -> A) (df : DataFrame) : list A :=
  map f (rows df).

(** [df['OPEX']]: a [KeyError] when the column is absent. *)
Definition col_OPEX (df : DataFrame) : result (list Q) :=
  if has_OPEX df then Ok (col OPEX df) else Raise (KeyError "OPEX").

(** ['OPEX' in df.columns]. *)
Definition in_columns_OPEX (df : DataFrame) : bool := has_OPEX df.

(** [df.loc[df[c] == name]]: the rows whose [c] is [name], in order. *)
Definition loc_eq (f : Row -> string) (name : string) (df : DataFrame)
  : DataFrame :=
  mkDF (has_OPEX df) (filter (fun r => String.eqb (f r) name) (rows df)).

(** [Series.unique()]: the distinct values in order of first appearance. *)
Fixpoint unique (l : list string) : list string :=
  match l with
  | [] => []
  | x :: t => x :: filter (fun y => negb (String.eqb y x)) (unique t)
  end.

(** [Series.sum()]. *)
Definition sum (s : list Q) : Q := fold_right Qplus 0%Q s.

(** [a - b] on two series of one frame. *)
Definition sub (a b : list Q) : list Q :=
  map (fun p => (fst p - snd p)%Q) (combine a b).

(** The outcome of a floating-point division. *)
Inductive xnum : Type :=
| Finite (q : Q)
| PosInf
| NegInf
| NaN.

Definition is_finite (x : xnum) : bool :=
  match x with Finite _ => true | _ => false end.

Definition Qgtb (a b : Q) : bool := negb (Qle_bool a b).

(** True division of floats: a zero divisor gives an infinity of the sign of
    the dividend, or NaN for [0 / 0]; nothing is raised. *)
Definition fdiv (a b : Q) : xnum :=
  if Qeq_bool b 0 then
    if Qgtb a 0 then PosInf else if Qgtb 0 a then NegInf else NaN
  else Finite (a / b).

(** [a / b] on two series of one frame. *)
Definition div (a b : list Q) : list xnum :=
  map (fun p => fdiv (fst p) (snd p)) (combine a b).

(** [df.groupby(c)]: one group per distinct key, iterated in sorted key
    order; a group holds the rows of its key in frame order. *)
Definition groupby (f : Row -> string) (df : DataFrame)
  : list (string * DataFrame) :=
  map (fun k => (k, loc_eq f k df)) (sorted (unique (col f df))).

End Pd.
Export Pd.

(* ================================================================== *)
(** * The tools of [analyst-tools.py] *)
(* ================================================================== *)

Local Open Scope Q_scope.

(** One [{'value': v, 'percentage': p}] entry of [compare_performance]. *)
Record cell : Type := mkCell {
  value : Q;
  percentage : Q
}.

(** One element of [entities_summary]. *)
Record summary : Type := mkSummary {
  name : string;
  revenue : Q;
  metrics : dict cell
}.

Definition valid_metrics : list string := ["revenue"; "gross_margin"; "ebitda"].

(** The message of the [ValueError] raised by a rejected fuzzy match. *)
Definition no_match_msg (kind query best : string) : string :=
  "No close match found for " ++ kind ++ " '" ++ query
    ++ "'. Did you mean '" ++ best ++ "'?".

(** What [best_match[1]] raises when [extractOne] returned [None]. *)
Definition none_subscript : exn :=
  TypeError "'NoneType' object is not subscriptable".

(** The [ValueError] of [get_data] for a metric it does not know. *)
Definition unknown_metric (metric : string) : exn :=
  ValueError ("Unknown metric: " ++ metric
    ++ ". Available metrics are 'gross_margin', 'revenue', 'ebitda'.").

(** The [ValueError] of [compare_performance] for a metric it does not
    know. *)
Definition unknown_metric_cmp (metric : string) : exn :=
  ValueError ("Unknown metric: " ++ metric
    ++ ". Available metrics are " ++ join ", " valid_metrics).

Definition invalid_entity_type : exn :=
  ValueError "entity_type must be either 'customer' or 'project'".

(** [x / total if total > 0 else 0]. *)
Definition guarded_ratio (x total : Q) : Q :=
  if Qgtb total 0 then x / total else 0.

(** The dictionary literal with the three metrics of one entity (and of
    the [OVERALL] entry). *)
Definition metric_table (total_revenue total_cogs total_opex : Q)
  : dict cell :=
  [ ("revenue", mkCell total_revenue 1);
    ("gross_margin",
      mkCell (total_revenue - total_cogs)
             (guarded_ratio (total_revenue - total_cogs) total_revenue));
    ("ebitda",
      mkCell (total_revenue - total_cogs - total_opex)
             (guarded_ratio (total_revenue - total_cogs - total_opex)
                            total_revenue)) ].

(** [part['OPEX'].sum() if 'OPEX' in df.columns else 0]. *)
Definition opex_or_zero (df part : DataFrame) : Q :=
  if in_columns_OPEX df then sum (col OPEX part) else 0.

(** [for metric in metrics: if metric.lower() not in valid_metrics: raise]. *)
Fixpoint validate_metrics (ms : list string) : result unit :=
  match ms with
  | [] => Ok tt
  | metric :: t =>
      if mem (lower metric) valid_metrics then validate_metrics t
      else Raise (unknown_metric_cmp metric)
  end.

(** The loop over the groups: one summary is appended per group; the
    dictionary comprehension indexes [entity_metrics] with the metric names
    as the caller wrote them. *)
Fixpoint summarise (df : DataFrame) (ms : list string)
  (groups : list (string * DataFrame)) (entities_summary : list summary)
  : result (list summary) :=
  match groups with
  | [] => Ok entities_summary
  | (entity_name, group) :: t =>
      let total_revenue := sum (col Revenue group) in
      let total_cogs := sum (col COGS group) in
      let total_opex := opex_or_zero df group in
      let entity_metrics := metric_table total_revenue total_cogs total_opex in
      sel <- dict_comp ms entity_metrics [] ;;
      summarise df ms t
        (entities_summary ++ [mkSummary entity_name total_revenue sel])
  end.

(** [entities_summary.sort(key=lambda x: x['revenue'], reverse=True)]. *)
Definition sort_by_revenue (es : list summary) : list summary :=
  stable_sort (fun y x => Qgtb (revenue y) (revenue x)) es.

(** [if top_n is not None and isinstance(top_n, int) and top_n > 0]. *)
Definition limit_top_n (top_n : option Z) (es : list summary)
  : list summary :=
  match top_n with
  | Some n => if (n >? 0)%Z then slice_to n es else es
  | None => es
  end.

(** [for entity in entities_summary: results[entity['name']] = ...]. *)
Definition fill_results (es : list summary) : dict (dict cell) :=
  fold_left (fun results e => dict_set (name e) (metrics e) results) es [].

(** [for entity in results: results[entity] = {metric:
    results[entity][metric] for metric in metrics}], over the keys in
    dictionary order. *)
Fixpoint project_results (ms : list string) (entities : list string)
  (results : dict (dict cell)) : result (dict (dict cell)) :=
  match entities with
  | [] => Ok results
  | entity :: t =>
      cur <- dict_get entity results ;;
      sel <- dict_comp ms cur [] ;;
      project_results ms t (dict_set entity sel results)
  end.

Definition compare_performance (df : DataFrame) (entity_type : string)
  (metrics : option (list string)) (top_n : option Z)
  : result (dict (dict cell)) :=
  if negb (mem (lower entity_type) ["customer"; "project"]) then
    Raise invalid_entity_type
  else
    let metrics :=
      match metrics with
      | None => ["revenue"; "gross_margin"; "ebitda"]
      | Some ms => ms
      end in
    _ <- validate_metrics metrics ;;
    let entity_col :=
      if String.eqb (lower entity_type) "customer"
      then CustomerName else ProjectName in
    let grouped := groupby entity_col df in
    entities_summary <- summarise df metrics grouped [] ;;
    let entities_summary := sort_by_revenue entities_summary in
    let entities_summary := limit_top_n top_n entities_summary in
    let results := fill_results entities_summary in
    let total_revenue := sum (col Revenue df) in
    let total_cogs := sum (col COGS df) in
    let total_opex := opex_or_zero df df in
    let results :=
      dict_set "OVERALL"
        (metric_table total_revenue total_cogs total_opex) results in
    project_results metrics (keys results) results.

Section Tools.

(** The scorer behind [process.extractOne]: a similarity on a 0..100 scale.
    It belongs to an external library and stays abstract. *)
Variable similarity : string -> string -> Z.

(** [process.extractOne(query, choices)]: the choice with the highest score
    together with that score, the first one met when several share it, and
    [None] when there is no choice at all. *)
Fixpoint best_of (query : string) (best : string * Z)
  (choices : list string) : string * Z :=
  match choices with
  | [] => best
  | c :: t =>
      let s := similarity query c in
      if (s >? snd best)%Z then best_of query (c, s) t
      else best_of query best t
  end.

Definition extractOne (query : string) (choices : list string)
  : option (string * Z) :=
  match choices with
  | [] => None
  | c :: t => Some (best_of query (c, similarity query c) t)
  end.

(** One [if arg: ...] block of [get_data]: a truthy argument is matched
    against the distinct names of column [f]; a match above 80 replaces the
    argument by the matched name and narrows the frame to its rows, any
    other match raises.  A falsy argument leaves both untouched. *)
Definition narrow (kind : string) (f : Row -> string)
  (arg : option string) (df : DataFrame)
  : result (option string * DataFrame) :=
  match arg with
  | Some (String a q) =>
      let query := String a q in
      let names := unique (col f df) in
      match extractOne query names with
      | None => Raise none_subscript
      | Some (best, score) =>
          if (score >? 80)%Z then Ok (Some best, loc_eq f best df)
          else Raise (ValueError (no_match_msg kind query best))
      end
  | _ => Ok (arg, df)
  end.

(** The branch [if not customer and not project] of [get_data]. *)
Definition overall_metric (metric : string) (df : DataFrame)
  : result (list Q * list xnum) :=
  let total_revenue := sum (col Revenue df) in
  let total_cogs := sum (col COGS df) in
  if String.eqb metric "gross_margin" then
    let overall_value := total_revenue - total_cogs in
    let overall_percentage := guarded_ratio overall_value total_revenue in
    Ok ([overall_value], [Finite overall_percentage])
  else if String.eqb metric "revenue" then
    Ok ([total_revenue], [Finite 1])
  else if String.eqb metric "ebitda" then
    opex <- col_OPEX df ;;
    let total_opex := sum opex in
    let overall_value := total_revenue - total_cogs - total_opex in
    let overall_percentage := guarded_ratio overall_value total_revenue in
    Ok ([overall_value], [Finite overall_percentage])
  else Raise (unknown_metric metric).

(** The row-wise tail of [get_data]. *)
Definition per_row_metric (metric : string) (df : DataFrame)
  : result (list Q * list xnum) :=
  if String.eqb metric "gross_margin" then
    let result_value := sub (col Revenue df) (col COGS df) in
    Ok (result_value, div result_value (col Revenue df))
  else if String.eqb metric "revenue" then
    Ok (col Revenue df, repeat (Finite 1) (List.length (rows df)))
  else if String.eqb metric "ebitda" then
    opex <- col_OPEX df ;;
    let result_value := sub (sub (col Revenue df) (col COGS df)) opex in
    Ok (result_value, div result_value (col Revenue df))
  else Raise (unknown_metric metric).

Definition get_data (df : DataFrame) (metric : string)
  (customer project : option string) : result (list Q * list xnum) :=
  '(customer, df) <- narrow "customer" CustomerName customer df ;;
  '(project, df) <- narrow "project" ProjectName project df ;;
  let metric := lower metric in
  if negb (truthy customer) && negb (truthy project)
  then overall_metric metric df
  else per_row_metric metric df.

(** The two directory lookups: the name is always matched (there is no
    truthiness test here). *)
Definition list_customer_projects (df : DataFrame) (customer_name : string)
  : result (list string) :=
  let customer_names := unique (col CustomerName df) in
  match extractOne customer_name customer_names with
  | None => Raise none_subscript
  | Some (customer, score) =>
      if (score >? 80)%Z then
        let customer_df := loc_eq CustomerName customer df in
        Ok (sorted (unique (col ProjectName customer_df)))
      else
        Raise (ValueError (no_match_msg "customer" customer_name customer))
  end.

Definition list_project_customers (df : DataFrame) (project_name : string)
  : result (list string) :=
  let project_names := unique (col ProjectName df) in
  match extractOne project_name project_names with
  | None => Raise none_subscript
  | Some (project, score) =>
      if (score >? 80)%Z then
        let project_df := loc_eq ProjectName project df in
        Ok (sorted (unique (col CustomerName project_df)))
      else
        Raise (ValueError (no_match_msg "project" project_name project))
  end.

End Tools.

(** ** The directory resources *)

Definition list_customers (df : DataFrame) : list string :=
  sorted (unique (col CustomerName df)).

Definition list_projects (df : DataFrame) : list string :=
  sorted (unique (col ProjectName df)).

Definition list_available_metrics : list string :=
  ["revenue"; "gross_margin"; "ebitda"].

(** The dictionary returned by [list_all_entities], one field per key. *)
Record entities : Type := mkEntities {
  customers : list string;
  projects : list string;
  customer_projects : dict (list string);
  project_customers : dict (list string)
}.

(** [for key in ks: d[key] = sorted(df[df[f] == key][g].unique().tolist())],
    starting from the empty dictionary. *)
Definition cross_reference (f g : Row -> string) (ks : list string)
  (df : DataFrame) : dict (list string) :=
  fold_left
    (fun d key =>
       let key_df := loc_eq f key df in
       dict_set key (sorted (unique (col g key_df))) d)
    ks [].

Definition list_all_entities (df : DataFrame) : entities :=
  let customers := sorted (unique (col CustomerName df)) in
  let projects := sorted (unique (col ProjectName df)) in
  let customer_projects :=
    cross_reference CustomerName ProjectName customers df in
  let project_customers :=
    cross_reference ProjectName CustomerName projects df in
  mkEntities customers projects customer_projects project_customers.

(* ================================================================== *)
(** * Reference notions used by the statements *)
(* ================================================================== *)

(** [pd.read_csv] loads an empty cell as a missing value, never as the
    empty string: the names of a loaded frame are non-empty. *)
Definition nonblank (s : string) : bool :=
  match s with
  | EmptyString => false
  | String _ _ => true
  end.

Definition well_formed (df : DataFrame) : bool :=
  forallb (fun r => nonblank (CustomerName r) && nonblank (ProjectName r))
          (rows df).

(** The closed enumeration of metrics and their names. *)
Inductive MetricKind : Type :=
| MRevenue
| MGrossMargin
| MEbitda.

Definition metric_name (m : MetricKind) : string :=
  match m with
  | MRevenue => "revenue"
  | MGrossMargin => "gross_margin"
  | MEbitda => "ebitda"
  end.

(** The metric as an expression over the three amounts, as the data model
    of the specification defines it. *)
Definition metric_expr (m : MetricKind) (rev cogs opex : Q) : Q :=
  match m with
  | MRevenue => rev
  | MGrossMargin => rev - cogs
  | MEbitda => rev - cogs - opex
  end.

Definition row_metric (m : MetricKind) (r : Row) : Q :=
  metric_expr m (Revenue r) (COGS r) (OPEX r).

(** The grouping column chosen from [entity_type]. *)
Definition entity_col (entity_type : string) : Row -> string :=
  if String.eqb (lower entity_type) "customer"
  then CustomerName else ProjectName.

(** The three metrics of one part of the frame ([df] itself for the
    [OVERALL] entry). *)
Definition part_table (df part : DataFrame) : dict cell :=
  metric_table (sum (col Revenue part)) (sum (col COGS part))
               (opex_or_zero df part).

(** The summary the loop appends for one group. *)
Definition summary_of (df : DataFrame) (ms : list string)
  (g : string * DataFrame) : summary :=
  mkSummary (fst g) (sum (col Revenue (snd g)))
            (select ms (part_table df (snd g)) []).

Definition entry_of (e : summary) : string * dict cell :=
  (name e, metrics e).

Definition project_entry (ms : list string) (kv : string * dict cell)
  : string * dict cell :=
  (fst kv, select ms (snd kv) []).

(** The summaries of all entities, taken in group order and sorted by
    revenue (before the cut to [top_n]). *)
Definition ranked (df : DataFrame) (f : Row -> string) (ms : list string)
  : list summary :=
  sort_by_revenue (map (summary_of df ms) (groupby f df)).

(** The entry of one metric in the table of [compare_performance], from
    the three totals. *)
Definition cell_of (m : MetricKind) (rev cogs opex : Q) : cell :=
  mkCell (metric_expr m rev cogs opex)
         (match m with
          | MRevenue => 1
          | _ => guarded_ratio (metric_expr m rev cogs opex) rev
          end).

(** An exception is an unknown-metric error when its message starts with
    [Unknown metric: ]. *)
Definition is_unknown_metric (e : exn) : bool :=
  match e with
  | ValueError msg => String.prefix "Unknown metric: " msg
  | _ => false
  end.

Definition raises_unknown_metric {A : Type} (r : result A) : bool :=
  match r with
  | Raise e => is_unknown_metric e
  | Ok _ => false
  end.

(** A stand-in scorer for concrete runs: 100 for two names that are equal
    once lowercased, 0 otherwise.  The library's default scorer compares
    lowercased text, so it also gives 100 in the first case; the concrete
    runs below use it otherwise only on names that share no letter, where
    the library gives 0 as well. *)
Definition caseless_similarity (a b : string) : Z :=
  if String.eqb (lower a) (lower b) then 100%Z else 0%Z.

(** Sample ledgers. *)
Definition acme_ledger : DataFrame :=
  mkDF true
    [ mkRow "Acme" "Web" 100 40 10;
      mkRow "Acme" "App" 50 10 5;
      mkRow "Beta" "Web" 0 5 1 ].

Definition abc_ledger : DataFrame :=
  mkDF true
    [ mkRow "C" "P1" 10 4 1;
      mkRow "A" "P1" 60 20 5;
      mkRow "B" "P2" 50 10 5;
      mkRow "A" "P2" 40 10 5 ].

Definition no_opex_ledger : DataFrame :=
  mkDF false
    [ mkRow "Acme" "Web" 100 40 0;
      mkRow "Beta" "App" 50 10 0 ].

Definition overall_named_ledger : DataFrame :=
  mkDF true
    [ mkRow "OVERALL" "Web" 100 40 10;
      mkRow "B" "App" 50 10 5 ].

Definition mixed_case_ledger : DataFrame :=
  mkDF true
    [ mkRow "ACME" "Web" 100 40 10;
      mkRow "Acme" "App" 50 10 5 ].

(* ================================================================== *)
(** * Typed columns: int64 and float64

    [pd.read_csv] types a numeric column [int64] when every cell is an
    integer and [float64] otherwise.  The arithmetic of the two differs
    from exact arithmetic: [int64] wraps around, [float64] rounds and has
    signed zeros, infinities and NaN.  The frame of this part carries typed
    cells and the arithmetic is numpy's; names and filtering are as
    before.  It serves the statements that rest on the arithmetic itself.

    A cell carries the type of its column, so in a frame read from a file
    all the cells of one column carry the same tag; an [int64] cell holds
    an integer of the 64-bit range, and the operations keep it there. *)
(* ================================================================== *)

Module Np.

(** A numpy scalar: an [int64] (a signed 64-bit integer, kept in range) or
    a [float64] (an IEEE binary64 value, a primitive float). *)
Inductive num : Type :=
| Int64 (z : Z)
| Float64 (f : PrimFloat.float).

(** Two's-complement wrap-around to the range of [int64]. *)
Definition wrap64 (z : Z) : Z :=
  ((z + 9223372036854775808) mod 18446744073709551616
   - 9223372036854775808)%Z.

(** The cast of an [int64] to [float64]: the nearest float, ties to
    even. *)
Definition of_int64 (z : Z) : PrimFloat.float :=
  FloatOps.SF2Prim
    (SpecFloat.binary_normalize FloatOps.prec FloatOps.emax z 0%Z false).

Definition to_float (x : num) : PrimFloat.float :=
  match x with
  | Int64 z => of_int64 z
  | Float64 f => f
  end.

(** [a - b]: two [int64] stay [int64] and wrap; as soon as a [float64] is
    involved both operands are cast to [float64]. *)
Definition sub (a b : num) : num :=
  match a, b with
  | Int64 x, Int64 y => Int64 (wrap64 (x - y))
  | _, _ => Float64 (PrimFloat.sub (to_float a) (to_float b))
  end.

(** [a / b] is true division: always carried out in [float64]; a zero
    divisor gives an infinity or NaN and raises nothing. *)
Definition truediv (a b : num) : num :=
  Float64 (PrimFloat.div (to_float a) (to_float b)).

(** [a > 0]. *)
Definition gt0 (a : num) : bool :=
  match a with
  | Int64 z => (0 <? z)%Z
  | Float64 f => PrimFloat.ltb PrimFloat.zero f
  end.

Definition is_int (x : num) : bool :=
  match x with
  | Int64 _ => true
  | Float64 _ => false
  end.

(** [Series.sum()] skips missing values: a NaN counts as zero. *)
Definition skipna (f : PrimFloat.float) : PrimFloat.float :=
  if PrimFloat.is_nan f then PrimFloat.zero else f.

(** One record of [dataset.csv], with typed amounts. *)
Record Row : Type := mkRow {
  CustomerName : string;
  ProjectName : string;
  Revenue : num;
  COGS : num;
  OPEX : num
}.

Record DataFrame : Type := mkDF {
  has_OPEX : bool;
  rows : list Row
}.

Definition col {A : Type} (f : Row -> A) (df : DataFrame) : list A :=
  map f (rows df).

Definition col_OPEX (df : DataFrame) : result (list num) :=
  if has_OPEX df then Ok (col OPEX df) else Raise (KeyError "OPEX").

Definition loc_eq (f : Row -> string) (name : string) (df : DataFrame)
  : DataFrame :=
  mkDF (has_OPEX df) (filter (fun r => String.eqb (f r) name) (rows df)).

(** [a - b] and [a / b] on two series of one frame. *)
Definition series_sub (a b : list num) : list num :=
  map (fun p => sub (fst p) (snd p)) (combine a b).

Definition series_div (a b : list num) : list num :=
  map (fun p => truediv (fst p) (snd p)) (combine a b).

Section Tools.

(** The scorer behind [process.extractOne], as before. *)
Variable similarity : string -> string -> Z.

(** numpy's summation of a [float64] array.  The order in which it adds
    (in sequence for short arrays, pairwise in blocks for long ones) is
    numpy's own and stays abstract. *)
Variable fsum : list PrimFloat.float -> PrimFloat.float.

(** [Series.sum()]: an [int64] column is added up in [int64], with
    wrap-around; a [float64] column is added up by numpy with the missing
    values taken as zero.  (A column without cells is not typed and sums to
    the integer 0.) *)
Definition series_sum (s : list num) : num :=
  if forallb is_int s then
    Int64 (fold_left
             (fun acc x =>
                match x with
                | Int64 z => wrap64 (acc + z)
                | Float64 _ => acc
                end)
             s 0%Z)
  else Float64 (fsum (map (fun x => skipna (to_float x)) s)).

(** [x / total if total > 0 else 0]; the fallback is the integer 0. *)
Definition guarded_ratio (x total : num) : num :=
  if gt0 total then truediv x total else Int64 0.

Definition narrow (kind : string) (f : Row -> string)
  (arg : option string) (df : DataFrame)
  : result (option string * DataFrame) :=
  match arg with
  | Some (String a q) =>
      let query := String a q in
      let names := unique (col f df) in
      match extractOne similarity query names with
      | None => Raise none_subscript
      | Some (best, score) =>
          if (score >? 80)%Z then Ok (Some best, loc_eq f best df)
          else Raise (ValueError (no_match_msg kind query best))
      end
  | _ => Ok (arg, df)
  end.

Definition overall_metric (metric : string) (df : DataFrame)
  : result (list num * list num) :=
  let total_revenue := series_sum (col Revenue df) in
  let total_cogs := series_sum (col COGS df) in
  if String.eqb metric "gross_margin" then
    let overall_value := sub total_revenue total_cogs in
    let overall_percentage := guarded_ratio overall_value total_revenue in
    Ok ([overall_value], [overall_percentage])
  else if String.eqb metric "revenue" then
    Ok ([total_revenue], [Float64 PrimFloat.one])
  else if String.eqb metric "ebitda" then
    opex <- col_OPEX df ;;
    let total_opex := series_sum opex in
    let overall_value := sub (sub total_revenue total_cogs) total_opex in
    let overall_percentage := guarded_ratio overall_value total_revenue in
    Ok ([overall_value], [overall_percentage])
  else Raise (unknown_metric metric).

Definition per_row_metric (metric : string) (df : DataFrame)
  : result (list num * list num) :=
  if String.eqb metric "gross_margin" then
    let result_value := series_sub (col Revenue df) (col COGS df) in
    Ok (result_value, series_div result_value (col Revenue df))
  else if String.eqb metric "revenue" then
    Ok (col Revenue df,
        repeat (Float64 PrimFloat.one) (List.length (rows df)))
  else if String.eqb metric "ebitda" then
    opex <- col_OPEX df ;;
    let result_value :=
      series_sub (series_sub (col Revenue df) (col COGS df)) opex in
    Ok (result_value, series_div result_value (col Revenue df))
  else Raise (unknown_metric metric).

Definition get_data (df : DataFrame) (metric : string)
  (customer project : option string) : result (list num * list num) :=
  '(customer, df) <- narrow "customer" CustomerName customer df ;;
  '(project, df) <- narrow "project" ProjectName project df ;;
  let metric := lower metric in
  if negb (truthy customer) && negb (truthy project)
  then overall_metric metric df
  else per_row_metric metric df.

End Tools.

(** The names of a loaded frame are non-empty. *)
Definition well_formed (df : DataFrame) : bool :=
  forallb (fun r => nonblank (CustomerName r) && nonblank (ProjectName r))
          (rows df).

(** The metric as an expression over three amounts, in the arithmetic of
    the amounts, and the metric of one row. *)
Definition metric_expr (m : MetricKind) (rev cogs opex : num) : num :=
  match m with
  | MRevenue => rev
  | MGrossMargin => sub rev cogs
  | MEbitda => sub (sub rev cogs) opex
  end.

Definition row_metric (m : MetricKind) (r : Row) : num :=
  metric_expr m (Revenue r) (COGS r) (OPEX r).




(** Adding in sequence from zero.  It stands for [fsum] in the concrete
    runs, which are on columns of two or three values whose sum comes out
    the same in whatever order the values are added. *)
Definition seq_sum (l : list PrimFloat.float) : PrimFloat.float :=
  fold_left PrimFloat.add l PrimFloat.zero.

End Np.

(** Sample ledgers with typed columns. *)
Section TypedSamples.
Import PrimFloat.
Local Open Scope float_scope.

(** All three amount columns are [float64]; two rows have a zero Revenue,
    one of each sign, and one row has a zero Revenue and a zero margin. *)
Definition float_ledger : Np.DataFrame :=
  Np.mkDF true
    [ Np.mkRow "Acme" "Web" (Np.Float64 100) (Np.Float64 40) (Np.Float64 10);
      Np.mkRow "Acme" "App" (Np.Float64 50) (Np.Float64 10) (Np.Float64 5);
      Np.mkRow "Beta" "Web" (Np.Float64 0) (Np.Float64 5) (Np.Float64 1);
      Np.mkRow "Beta" "App" (Np.Float64 (-0)) (Np.Float64 5) (Np.Float64 1);
      Np.mkRow "Beta" "Ops" (Np.Float64 0) (Np.Float64 0) (Np.Float64 0) ].

(** A ledger of refunds: the total Revenue is negative. *)
Definition refund_ledger : Np.DataFrame :=
  Np.mkDF true
    [ Np.mkRow "Acme" "Web" (Np.Float64 (-10)) (Np.Float64 5) (Np.Float64 1);
      Np.mkRow "Beta" "App" (Np.Float64 4) (Np.Float64 1) (Np.Float64 1) ].


(** A ledger with a missing Revenue cell, which [pd.read_csv] loads as
    NaN. *)
Definition gap_ledger : Np.DataFrame :=
  Np.mkDF true
    [ Np.mkRow "Acme" "Web" (Np.Float64 nan) (Np.Float64 30) (Np.Float64 10);
      Np.mkRow "Acme" "App" (Np.Float64 50) (Np.Float64 10) (Np.Float64 5) ].

(** Revenue and OPEX are [int64] columns, COGS is a [float64] column. *)
Definition mixed_ledger : Np.DataFrame :=
  Np.mkDF true
    [ Np.mkRow "Acme" "Web" (Np.Int64 100) (Np.Float64 40.5) (Np.Int64 10);
      Np.mkRow "Beta" "App" (Np.Int64 50) (Np.Float64 10.25) (Np.Int64 5) ].


End TypedSamples.

(** All three amount columns are [int64]. *)
Definition int_ledger : Np.DataFrame :=
  Np.mkDF true
    [ Np.mkRow "Acme" "Web" (Np.Int64 100) (Np.Int64 40) (Np.Int64 10);
      Np.mkRow "Acme" "App" (Np.Int64 50) (Np.Int64 10) (Np.Int64 5);
      Np.mkRow "Beta" "Web" (Np.Int64 0) (Np.Int64 5) (Np.Int64 1) ].


(* ================================================================== *)
(** * Facts about the primitives *)
(* ================================================================== *)

Lemma truthy_nonblank (s : string) : truthy (Some s) = nonblank s.
Proof. destruct s; reflexivity. Qed.

(** ** Series arithmetic *)

Lemma sub_map {A : Type} (f g : A -> Q) (l : list A) :
  sub (map f l) (map g l) = map (fun r => f r - g r) l.
Proof.
  unfold sub. induction l as [|x l IH]; simpl; [reflexivity|].
  now rewrite IH.
Qed.

Lemma div_map {A : Type} (f g : A -> Q) (l : list A) :
  div (map f l) (map g l) = map (fun r => fdiv (f r) (g r)) l.
Proof.
  unfold div. induction l as [|x l IH]; simpl; [reflexivity|].
  now rewrite IH.
Qed.



(** ** [unique] *)

Lemma unique_In (x : string) (l : list string) : In x (unique l) <-> In x l.
Proof.
  induction l as [|y l IH]; simpl; [tauto|].
  rewrite filter_In, IH, negb_true_iff, String.eqb_neq.
  destruct (String.eqb_spec y x) as [->|N]; [tauto|].
  split; [tauto|]. intros [H|H]; [tauto|]. right. split; congruence.
Qed.

Lemma unique_NoDup (l : list string) : NoDup (unique l).
Proof.
  induction l as [|y l IH]; simpl; constructor.
  - rewrite filter_In, String.eqb_refl. simpl. intros [_ H]. discriminate.
  - now apply NoDup_filter.
Qed.

Lemma unique_nil_inv (l : list string) : unique l = [] -> l = [].
Proof. destruct l; simpl; [reflexivity|discriminate]. Qed.

(** ** The fuzzy matcher *)

Section MatcherFacts.
Variable similarity : string -> string -> Z.
Local Open Scope Z_scope.


(** The running best only ever improves, dominates every choice seen, and
    is either the initial one or a choice with its own score. *)
Lemma best_of_spec (q : string) (l : list string) : forall b,
  snd b <= snd (best_of similarity q b l)
  /\ (forall c, In c l -> similarity q c <= snd (best_of similarity q b l))
  /\ (best_of similarity q b l = b
      \/ In (fst (best_of similarity q b l)) l
         /\ snd (best_of similarity q b l)
            = similarity q (fst (best_of similarity q b l))).
Proof.
  induction l as [|c l IH]; intros b; simpl.
  - repeat split; [lia | tauto | now left].
  - destruct (similarity q c >? snd b) eqn:E.
    + apply Z.gtb_lt in E.
      destruct (IH (c, similarity q c)) as (H1 & H2 & H3). simpl in H1.
      repeat split.
      * lia.
      * intros x [<-|Hx]; [exact H1 | now apply H2].
      * right. destruct H3 as [-> | [Hin Hs]]; simpl; [tauto|].
        split; [now right | exact Hs].
    + assert (similarity q c <= snd b) as Hle.
      { destruct (Z.gtb_spec (similarity q c) (snd b)); [discriminate|lia]. }
      destruct (IH b) as (H1 & H2 & H3).
      repeat split.
      * exact H1.
      * intros x [<-|Hx]; [lia | now apply H2].
      * destruct H3 as [-> | [Hin Hs]]; [now left|].
        right. split; [now right | exact Hs].
Qed.

(** Once the running best has a score no later choice exceeds, it stays. *)
Lemma best_of_keeps (q : string) (l : list string) : forall b,
  (forall c, In c l -> similarity q c <= snd b) -> best_of similarity q b l = b.
Proof.
  induction l as [|c l IH]; intros b H; simpl; [reflexivity|].
  assert (similarity q c <= snd b) as Hc by (apply H; now left).
  destruct (Z.gtb_spec (similarity q c) (snd b)); [lia|].
  apply IH. intros x Hx. apply H. now right.
Qed.

(** The first choice that reaches the maximum wins. *)
Lemma best_of_first_max (q x : string) (l1 l2 : list string) : forall b,
  snd b < similarity q x ->
  (forall c, In c l1 -> similarity q c < similarity q x) ->
  (forall c, In c l2 -> similarity q c <= similarity q x) ->
  best_of similarity q b (l1 ++ x :: l2) = (x, similarity q x).
Proof.
  induction l1 as [|c l1 IH]; intros b Hb H1 H2; simpl.
  - destruct (Z.gtb_spec (similarity q x) (snd b)); [|lia].
    now apply best_of_keeps.
  - assert (similarity q c < similarity q x) as Hc by (apply H1; now left).
    destruct (similarity q c >? snd b);
      apply IH; simpl; auto; intros y Hy; apply H1; now right.
Qed.

Lemma extractOne_first_max (q x : string) (l1 l2 : list string) :
  (forall c, In c l1 -> similarity q c < similarity q x) ->
  (forall c, In c l2 -> similarity q c <= similarity q x) ->
  extractOne similarity q (l1 ++ x :: l2) = Some (x, similarity q x).
Proof.
  intros H1 H2. destruct l1 as [|c l1]; simpl.
  - f_equal. now apply best_of_keeps.
  - f_equal. apply best_of_first_max; simpl; auto.
    + apply H1. now left.
    + intros y Hy. apply H1. now right.
Qed.

(** On a non-empty list of choices there is a best match: one of the
    choices, with its own score, which no choice exceeds. *)
Lemma extractOne_some (q : string) (l : list string) :
  l <> [] ->
  exists best score,
    extractOne similarity q l = Some (best, score)
    /\ In best l /\ score = similarity q best
    /\ forall c, In c l -> similarity q c <= score.
Proof.
  destruct l as [|c l]; [congruence|]. intros _. simpl.
  destruct (best_of_spec q l (c, similarity q c)) as (H1 & H2 & H3).
  destruct (best_of similarity q (c, similarity q c) l) as [best score] eqn:E.
  simpl in *. exists best, score. repeat split.
  - destruct H3 as [H3 | [H3 _]]; [inversion H3; now left | now right].
  - destruct H3 as [H3 | [_ H3]]; [now inversion H3 | exact H3].
  - intros x [<-|Hx]; [exact H1 | now apply H2].
Qed.

Lemma extractOne_none (q : string) (l : list string) :
  extractOne similarity q l = None <-> l = [].
Proof. destruct l; simpl; split; congruence. Qed.

Lemma extractOne_inv (q best : string) (score : Z) (l : list string) :
  extractOne similarity q l = Some (best, score) ->
  In best l /\ score = similarity q best
  /\ forall c, In c l -> similarity q c <= score.
Proof.
  intros H. assert (l <> []) as Hl by (intros ->; discriminate).
  destruct (extractOne_some q l Hl) as (b & s & E & H1 & H2 & H3).
  rewrite H in E. inversion E; subst. auto.
Qed.

End MatcherFacts.

(** The first element of a list that satisfies a test. *)
Lemma first_such {A : Type} (p : A -> bool) (l : list A) (y : A) :
  In y l -> p y = true ->
  exists l1 x l2,
    l = l1 ++ x :: l2 /\ p x = true /\ forall c, In c l1 -> p c = false.
Proof.
  induction l as [|a l IH]; intros Hin Hy; [contradiction|].
  destruct (p a) eqn:E.
  - exists [], a, l. repeat split; auto. intros c [].
  - destruct Hin as [->|Hin]; [congruence|].
    destruct (IH Hin Hy) as (l1 & x & l2 & -> & Hx & Hl1).
    exists (a :: l1), x, l2. repeat split; auto.
    intros c [<-|Hc]; auto.
Qed.

(* ================================================================== *)
(** * Entity resolution inside the tools *)
(* ================================================================== *)

(** A narrowed frame keeps the rows of the matched name, and there is at
    least one. *)
Lemma loc_eq_rows (f : Row -> string) (n : string) (df : DataFrame) (r : Row) :
  In r (rows (loc_eq f n df)) <-> In r (rows df) /\ f r = n.
Proof.
  unfold loc_eq. simpl. rewrite filter_In, String.eqb_eq. tauto.
Qed.

Lemma loc_eq_nonempty (f : Row -> string) (n : string) (df : DataFrame) :
  In n (unique (col f df)) -> rows (loc_eq f n df) <> [].
Proof.
  intros H. rewrite unique_In in H. unfold col in H.
  apply in_map_iff in H. destruct H as (r & Hr & Hin).
  intros E. assert (In r (rows (loc_eq f n df))) as Hr'.
  { apply loc_eq_rows. auto. }
  rewrite E in Hr'. contradiction.
Qed.

Lemma loc_eq_has_OPEX (f : Row -> string) (n : string) (df : DataFrame) :
  has_OPEX (loc_eq f n df) = has_OPEX df.
Proof. reflexivity. Qed.

Lemma well_formed_loc_eq (f : Row -> string) (n : string) (df : DataFrame) :
  well_formed df = true -> well_formed (loc_eq f n df) = true.
Proof.
  unfold well_formed. rewrite !forallb_forall. intros H r Hr.
  apply loc_eq_rows in Hr. now apply H.
Qed.

Lemma well_formed_names (f : Row -> string) (df : DataFrame) (n : string) :
  well_formed df = true ->
  f = CustomerName \/ f = ProjectName ->
  In n (unique (col f df)) -> truthy (Some n) = true.
Proof.
  unfold well_formed. rewrite forallb_forall. intros H Hf Hn.
  rewrite unique_In in Hn. unfold col in Hn. apply in_map_iff in Hn.
  destruct Hn as (r & <- & Hr). specialize (H r Hr).
  apply andb_true_iff in H. rewrite truthy_nonblank.
  destruct Hf as [-> | ->]; tauto.
Qed.

Section NarrowFacts.
Variable similarity : string -> string -> Z.
Local Open Scope Z_scope.

Lemma narrow_falsy (kind : string) (f : Row -> string)
  (arg : option string) (df : DataFrame) :
  truthy arg = false -> narrow similarity kind f arg df = Ok (arg, df).
Proof. destruct arg as [[|a q]|]; simpl; intros H; congruence. Qed.

Lemma narrow_truthy (kind : string) (f : Row -> string) (q : string)
  (df : DataFrame) :
  truthy (Some q) = true ->
  narrow similarity kind f (Some q) df =
    match extractOne similarity q (unique (col f df)) with
    | None => Raise none_subscript
    | Some (best, score) =>
        if score >? 80 then Ok (Some best, loc_eq f best df)
        else Raise (ValueError (no_match_msg kind q best))
    end.
Proof. destruct q; simpl; [discriminate | reflexivity]. Qed.

Lemma narrow_accept (kind : string) (f : Row -> string) (q best : string)
  (score : Z) (df : DataFrame) :
  truthy (Some q) = true ->
  extractOne similarity q (unique (col f df)) = Some (best, score) ->
  score > 80 ->
  narrow similarity kind f (Some q) df = Ok (Some best, loc_eq f best df).
Proof.
  intros Hq E Hs. rewrite narrow_truthy, E by exact Hq.
  destruct (Z.gtb_spec score 80); [reflexivity | lia].
Qed.

Lemma narrow_reject (kind : string) (f : Row -> string) (q best : string)
  (score : Z) (df : DataFrame) :
  truthy (Some q) = true ->
  extractOne similarity q (unique (col f df)) = Some (best, score) ->
  score <= 80 ->
  narrow similarity kind f (Some q) df =
    Raise (ValueError (no_match_msg kind q best)).
Proof.
  intros Hq E Hs. rewrite narrow_truthy, E by exact Hq.
  destruct (Z.gtb_spec score 80); [lia | reflexivity].
Qed.

(** What a successful narrowing step returns. *)
Lemma narrow_ok_inv (kind : string) (f : Row -> string)
  (arg arg' : option string) (df df' : DataFrame) :
  narrow similarity kind f arg df = Ok (arg', df') ->
  (truthy arg = false /\ arg' = arg /\ df' = df)
  \/ exists q best score,
       arg = Some q /\ truthy arg = true
       /\ extractOne similarity q (unique (col f df)) = Some (best, score)
       /\ score > 80 /\ arg' = Some best /\ df' = loc_eq f best df.
Proof.
  intros H. destruct (truthy arg) eqn:T.
  - right. destruct arg as [q|]; [|discriminate].
    rewrite narrow_truthy in H by exact T.
    destruct (extractOne similarity q (unique (col f df)))
      as [[best score]|] eqn:E; [|discriminate].
    destruct (Z.gtb_spec score 80); [|discriminate].
    inversion H; subst. exists q, best, score. repeat split; auto. lia.
  - left. rewrite narrow_falsy in H by exact T. inversion H; auto.
Qed.

End NarrowFacts.

(* ================================================================== *)
(** * [get_data] *)
(* ================================================================== *)

Section GetDataFacts.
Variable similarity : string -> string -> Z.
Local Open Scope Z_scope.

(** [get_data] once both narrowing steps went through. *)
Lemma get_data_steps (df df1 df2 : DataFrame) (metric : string)
  (c p c' p' : option string) :
  narrow similarity "customer" CustomerName c df = Ok (c', df1) ->
  narrow similarity "project" ProjectName p df1 = Ok (p', df2) ->
  get_data similarity df metric c p =
    if negb (truthy c') && negb (truthy p')
    then overall_metric (lower metric) df2
    else per_row_metric (lower metric) df2.
Proof.
  intros H1 H2. unfold get_data. rewrite H1. cbn [bind].
  rewrite H2. reflexivity.
Qed.

Lemma get_data_customer_raise (df : DataFrame) (metric : string)
  (c p : option string) (e : exn) :
  narrow similarity "customer" CustomerName c df = Raise e ->
  get_data similarity df metric c p = Raise e.
Proof. intros H. unfold get_data. rewrite H. reflexivity. Qed.

Lemma get_data_project_raise (df df1 : DataFrame) (metric : string)
  (c p c' : option string) (e : exn) :
  narrow similarity "customer" CustomerName c df = Ok (c', df1) ->
  narrow similarity "project" ProjectName p df1 = Raise e ->
  get_data similarity df metric c p = Raise e.
Proof.
  intros H1 H2. unfold get_data. rewrite H1. cbn [bind].
  rewrite H2. reflexivity.
Qed.

(** A narrowing step keeps the shape of the frame, and on a well-formed
    frame it keeps the truthiness of its argument. *)
Lemma narrow_preserves (kind : string) (f : Row -> string)
  (arg arg' : option string) (df df' : DataFrame) :
  f = CustomerName \/ f = ProjectName ->
  well_formed df = true ->
  narrow similarity kind f arg df = Ok (arg', df') ->
  truthy arg' = truthy arg
  /\ well_formed df' = true
  /\ has_OPEX df' = has_OPEX df.
Proof.
  intros Hf W H.
  destruct (narrow_ok_inv _ _ _ _ _ _ _ H)
    as [(T & -> & ->) | (q & best & score & -> & T & E & Hs & -> & ->)].
  - auto.
  - apply extractOne_inv in E. destruct E as (Hin & _).
    rewrite T. repeat split.
    + eapply well_formed_names; eauto.
    + now apply well_formed_loc_eq.
Qed.

(** The row-wise tail, written over the rows. *)
Lemma per_row_gross_margin (df : DataFrame) :
  per_row_metric "gross_margin" df =
    Ok (map (row_metric MGrossMargin) (rows df),
        map (fun r => fdiv (row_metric MGrossMargin r) (Revenue r)) (rows df)).
Proof.
  unfold per_row_metric. cbn [String.eqb Ascii.eqb Bool.eqb].
  unfold col. rewrite sub_map.
  rewrite (div_map (fun r => (Revenue r - COGS r)%Q) Revenue).
  reflexivity.
Qed.

Lemma per_row_ebitda (df : DataFrame) :
  has_OPEX df = true ->
  per_row_metric "ebitda" df =
    Ok (map (row_metric MEbitda) (rows df),
        map (fun r => fdiv (row_metric MEbitda r) (Revenue r)) (rows df)).
Proof.
  intros H. unfold per_row_metric, col_OPEX.
  cbn [String.eqb Ascii.eqb Bool.eqb]. rewrite H. cbn [bind].
  unfold col. rewrite sub_map.
  rewrite (sub_map (fun r => (Revenue r - COGS r)%Q) OPEX).
  rewrite (div_map (fun r => (Revenue r - COGS r - OPEX r)%Q) Revenue).
  reflexivity.
Qed.

Lemma per_row_revenue (df : DataFrame) :
  per_row_metric "revenue" df =
    Ok (map (row_metric MRevenue) (rows df),
        repeat (Finite 1) (List.length (rows df))).
Proof. reflexivity. Qed.

Lemma per_row_ebitda_no_OPEX (df : DataFrame) :
  has_OPEX df = false -> per_row_metric "ebitda" df = Raise (KeyError "OPEX").
Proof.
  intros H. unfold per_row_metric, col_OPEX.
  cbn [String.eqb Ascii.eqb Bool.eqb]. now rewrite H.
Qed.

Lemma overall_ebitda_no_OPEX (df : DataFrame) :
  has_OPEX df = false -> overall_metric "ebitda" df = Raise (KeyError "OPEX").
Proof.
  intros H. unfold overall_metric, col_OPEX.
  cbn [String.eqb Ascii.eqb Bool.eqb]. now rewrite H.
Qed.

(** The aggregate branch, written over the column totals. *)
Lemma overall_metric_value (df : DataFrame) (m : MetricKind) :
  (m = MEbitda -> has_OPEX df = true) ->
  exists pct,
    overall_metric (metric_name m) df =
      Ok ([metric_expr m (sum (col Revenue df)) (sum (col COGS df))
                         (sum (col OPEX df))],
          [Finite pct])
    /\ (m <> MRevenue ->
        pct = guarded_ratio
                (metric_expr m (sum (col Revenue df)) (sum (col COGS df))
                               (sum (col OPEX df)))
                (sum (col Revenue df))).
Proof.
  intros H. destruct m; unfold overall_metric, col_OPEX;
    cbn [metric_name String.eqb Ascii.eqb Bool.eqb].
  - exists 1%Q. split; [reflexivity | congruence].
  - eexists. split; [reflexivity | reflexivity].
  - rewrite (H eq_refl). cbn [bind].
    eexists. split; [reflexivity | reflexivity].
Qed.

End GetDataFacts.

Lemma narrow_has_OPEX (similarity : string -> string -> Z) (kind : string)
  (f : Row -> string) (arg arg' : option string) (df df' : DataFrame) :
  narrow similarity kind f arg df = Ok (arg', df') ->
  has_OPEX df' = has_OPEX df.
Proof.
  intros H.
  destruct (narrow_ok_inv _ _ _ _ _ _ _ H)
    as [(_ & _ & ->) | (q & best & score & _ & _ & _ & _ & _ & ->)];
    reflexivity.
Qed.

(** On a frame without the [OPEX] column, [get_data] never returns a result
    for [ebitda], whatever the filters. *)
Lemma get_data_ebitda_no_OPEX (similarity : string -> string -> Z)
  (df : DataFrame) (metric : string) (c p : option string) :
  has_OPEX df = false -> lower metric = "ebitda" ->
  is_ok (get_data similarity df metric c p) = false.
Proof.
  intros H M.
  destruct (narrow similarity "customer" CustomerName c df)
    as [[c' df1]|e] eqn:E1.
  2:{ now rewrite (get_data_customer_raise _ _ _ _ _ _ E1). }
  destruct (narrow similarity "project" ProjectName p df1)
    as [[p' df2]|e] eqn:E2.
  2:{ now rewrite (get_data_project_raise _ _ _ _ _ _ _ _ E1 E2). }
  rewrite (get_data_steps _ _ _ _ _ _ _ _ _ E1 E2), M.
  assert (has_OPEX df2 = false) as H2.
  { rewrite (narrow_has_OPEX _ _ _ _ _ _ _ E2).
    now rewrite (narrow_has_OPEX _ _ _ _ _ _ _ E1). }
  destruct (negb (truthy c') && negb (truthy p')).
  - now rewrite overall_ebitda_no_OPEX.
  - now rewrite per_row_ebitda_no_OPEX.
Qed.

(* ================================================================== *)
(** * Claims about [get_data] *)
(* ================================================================== *)

(** C1 (refuted on the code).  The claim says that on a ledger without the
    OPEX column every evaluation of ebitda takes OPEX as zero.  Only
    [compare_performance] does: it tests for the column and falls back to
    zero.  [get_data] reads the column unconditionally, so on every such
    ledger its unfiltered mode raises [KeyError('OPEX')] and no filtered
    call returns a result either; on the sample ledger the filtered call
    for customer Acme raises the same error, while [compare_performance]
    answers with ebitda = Revenue - COGS - 0. *)
Theorem C1_get_data_ebitda_reads_missing_OPEX :
  (forall (similarity : string -> string -> Z) (rs : list Row),
      get_data similarity (mkDF false rs) "ebitda" None None
      = Raise (KeyError "OPEX"))
  /\ (forall (similarity : string -> string -> Z) (rs : list Row)
             (c p : option string),
      is_ok (get_data similarity (mkDF false rs) "ebitda" c p) = false)
  /\ get_data caseless_similarity no_opex_ledger "ebitda" (Some "Acme") None
     = Raise (KeyError "OPEX")
  /\ (forall (rs : list Row) (part : DataFrame),
      opex_or_zero (mkDF false rs) part = 0%Q)
  /\ compare_performance no_opex_ledger "customer" (Some ["ebitda"]) None
     = Ok [ ("Acme", [("ebitda", mkCell (100 - 40 - 0) ((100 - 40 - 0) / 100))]);
            ("Beta", [("ebitda", mkCell (50 - 10 - 0) ((50 - 10 - 0) / 50))]);
            ("OVERALL",
              [("ebitda",
                 mkCell (100 + (50 + 0) - (40 + (10 + 0)) - 0)
                        ((100 + (50 + 0) - (40 + (10 + 0)) - 0)
                           / (100 + (50 + 0))))]) ].
Proof.
  split; [|split; [|split; [|split]]].
  - intros similarity rs. reflexivity.
  - intros similarity rs c p. now apply get_data_ebitda_no_OPEX.
  - reflexivity.
  - intros rs part. reflexivity.
  - reflexivity.
Qed.

(** C10.  An empty-string customer or project is handled exactly like an
    absent one: the narrowing step returns at once with the frame untouched
    (no matching, so no no-close-match error), the call equals the call
    with the argument left out, and with both arguments empty the result is
    the whole-ledger aggregate, whatever the scorer. *)
Theorem C10_empty_string_is_absent
  (similarity similarity' : string -> string -> Z) (df : DataFrame)
  (metric : string) (c p : option string) :
  narrow similarity "customer" CustomerName (Some "") df = Ok (Some "", df)
  /\ narrow similarity "project" ProjectName (Some "") df = Ok (Some "", df)
  /\ get_data similarity df metric (Some "") p
     = get_data similarity df metric None p
  /\ get_data similarity df metric c (Some "")
     = get_data similarity df metric c None
  /\ get_data similarity df metric (Some "") (Some "")
     = get_data similarity' df metric None None
  /\ get_data similarity df metric (Some "") (Some "")
     = overall_metric (lower metric) df.
Proof.
  repeat split; reflexivity.
Qed.

Lemma lower_metric_name (m : MetricKind) : lower (metric_name m) = metric_name m.
Proof. destruct m; reflexivity. Qed.

Lemma per_row_metric_value (df : DataFrame) (m : MetricKind) :
  (m = MEbitda -> has_OPEX df = true) ->
  exists pcts,
    per_row_metric (metric_name m) df
    = Ok (map (row_metric m) (rows df), pcts)
    /\ (m <> MRevenue ->
        pcts = map (fun r => fdiv (row_metric m r) (Revenue r)) (rows df)).
Proof.
  intros H. destruct m; cbn [metric_name].
  - rewrite per_row_revenue. eexists. split; [reflexivity | congruence].
  - rewrite per_row_gross_margin. eexists. split; reflexivity.
  - rewrite per_row_ebitda by auto. eexists. split; reflexivity.
Qed.

Lemma is_ok_threshold {A : Type} (score : Z) (a : A) (e : exn) :
  is_ok (if (score >? 80)%Z then Ok a else Raise e) = true <-> (score > 80)%Z.
Proof.
  destruct (Z.gtb_spec score 80); simpl; split; intros; try lia; congruence.
Qed.

Lemma no_match_msg_customer (query best : string) :
  ("No close match found for customer '" ++ query
     ++ "'. Did you mean '" ++ best ++ "'?")%string
  = no_match_msg "customer" query best.
Proof. reflexivity. Qed.

Lemma no_match_msg_project (query best : string) :
  ("No close match found for project '" ++ query
     ++ "'. Did you mean '" ++ best ++ "'?")%string
  = no_match_msg "project" query best.
Proof. reflexivity. Qed.

(** C6.  Each resolution step accepts its best match exactly when the score
    is strictly above 80, and otherwise fails with the no-close-match
    [ValueError] whose message names the rejected best candidate; nothing is
    returned then.  This holds for the customer step and the project step
    of [get_data] (the latter on the frame the customer step left) and for
    the two directory lookups.  The best match is the one [extractOne]
    reports on the distinct names of the column; there is one as soon as
    the frame has a row. *)
Theorem C6_confidence_threshold
  (similarity : string -> string -> Z) (df : DataFrame)
  (query best : string) (score : Z) (metric : string)
  (other : option string) :
  truthy (Some query) = true ->
  (extractOne similarity query (unique (col CustomerName df))
   = Some (best, score) ->
     (is_ok (narrow similarity "customer" CustomerName (Some query) df) = true
      <-> (score > 80)%Z)
     /\ ((score > 80)%Z ->
         narrow similarity "customer" CustomerName (Some query) df
         = Ok (Some best, loc_eq CustomerName best df))
     /\ ((score <= 80)%Z ->
         get_data similarity df metric (Some query) other
         = Raise (ValueError ("No close match found for customer '" ++ query
                              ++ "'. Did you mean '" ++ best ++ "'?")))
     /\ (is_ok (list_customer_projects similarity df query) = true
         <-> (score > 80)%Z)
     /\ ((score <= 80)%Z ->
         list_customer_projects similarity df query
         = Raise (ValueError ("No close match found for customer '" ++ query
                              ++ "'. Did you mean '" ++ best ++ "'?"))))
  /\ (forall (c' : option string) (df1 : DataFrame),
       narrow similarity "customer" CustomerName other df = Ok (c', df1) ->
       extractOne similarity query (unique (col ProjectName df1))
       = Some (best, score) ->
       (is_ok (narrow similarity "project" ProjectName (Some query) df1) = true
        <-> (score > 80)%Z)
       /\ ((score > 80)%Z ->
           narrow similarity "project" ProjectName (Some query) df1
           = Ok (Some best, loc_eq ProjectName best df1))
       /\ ((score <= 80)%Z ->
           get_data similarity df metric other (Some query)
           = Raise (ValueError ("No close match found for project '" ++ query
                                ++ "'. Did you mean '" ++ best ++ "'?"))))
  /\ (extractOne similarity query (unique (col ProjectName df))
      = Some (best, score) ->
      (is_ok (list_project_customers similarity df query) = true
       <-> (score > 80)%Z)
      /\ ((score <= 80)%Z ->
          list_project_customers similarity df query
          = Raise (ValueError ("No close match found for project '" ++ query
                               ++ "'. Did you mean '" ++ best ++ "'?"))))
  /\ (rows df <> [] ->
      (exists b s,
         extractOne similarity query (unique (col CustomerName df))
         = Some (b, s))
      /\ (exists b s,
            extractOne similarity query (unique (col ProjectName df))
            = Some (b, s))).
Proof.
  intros T. rewrite !no_match_msg_customer, !no_match_msg_project.
  split; [|split; [|split]].
  - intros E. split; [|split; [|split; [|split]]].
    + rewrite narrow_truthy, E by exact T. apply is_ok_threshold.
    + intros Hs. now apply (narrow_accept similarity _ _ _ _ score).
    + intros Hs. apply get_data_customer_raise.
      now apply (narrow_reject similarity _ _ _ _ score).
    + unfold list_customer_projects. rewrite E. apply is_ok_threshold.
    + intros Hs. unfold list_customer_projects. rewrite E.
      destruct (Z.gtb_spec score 80); [lia | reflexivity].
  - intros c' df1 H1 E. split; [|split].
    + rewrite narrow_truthy, E by exact T. apply is_ok_threshold.
    + intros Hs. now apply (narrow_accept similarity _ _ _ _ score).
    + intros Hs. apply (get_data_project_raise similarity df df1 _ _ _ c').
      * exact H1.
      * now apply (narrow_reject similarity _ _ _ _ score).
  - intros E. split.
    + unfold list_project_customers. rewrite E. apply is_ok_threshold.
    + intros Hs. unfold list_project_customers. rewrite E.
      destruct (Z.gtb_spec score 80); [lia | reflexivity].
  - intros NE.
    assert (forall f : Row -> string, unique (col f df) <> []) as U.
    { intros f E. apply unique_nil_inv in E. unfold col in E.
      now apply map_eq_nil in E. }
    split.
    + destruct (extractOne_some similarity query _ (U CustomerName))
        as (b & s & E & _). now exists b, s.
    + destruct (extractOne_some similarity query _ (U ProjectName))
        as (b & s & E & _). now exists b, s.
Qed.

Lemma C6_confidence_threshold_witness :
  get_data caseless_similarity acme_ledger "revenue" (Some "zzz") None
  = Raise (ValueError
             "No close match found for customer 'zzz'. Did you mean 'Acme'?")
  /\ list_customer_projects caseless_similarity acme_ledger "zzz"
     = Raise (ValueError
             "No close match found for customer 'zzz'. Did you mean 'Acme'?").
Proof.
  destruct (C6_confidence_threshold caseless_similarity acme_ledger
              "zzz" "Acme" 0%Z "revenue" None eq_refl) as [H _].
  destruct (H eq_refl) as (_ & _ & H1 & _ & H2).
  split; [apply H1 | apply H2]; lia.
Defined.

(** C2, the claim as stated, fails.  Customer Acme resolves; the project
    name zzz matches none of Acme's projects (both score 0); the call does
    not return an empty result but raises the no-close-match error of the
    project step. *)
Lemma C2_counterexample :
  narrow caseless_similarity "customer" CustomerName (Some "Acme") acme_ledger
  = Ok (Some "Acme", loc_eq CustomerName "Acme" acme_ledger)
  /\ unique (col ProjectName (loc_eq CustomerName "Acme" acme_ledger))
     = ["Web"; "App"]
  /\ caseless_similarity "zzz" "Web" = 0%Z
  /\ caseless_similarity "zzz" "App" = 0%Z
  /\ get_data caseless_similarity acme_ledger "revenue"
       (Some "Acme") (Some "zzz")
     = Raise (ValueError
                "No close match found for project 'zzz'. Did you mean 'Web'?")
  /\ get_data caseless_similarity acme_ledger "revenue"
       (Some "Acme") (Some "zzz")
     <> Ok ([], []).
Proof.
  repeat (split; [reflexivity|]). discriminate.
Qed.

(** C2, as amended.  With both arguments supplied, the customer is resolved
    first: if its best match scores at most 80 the call raises the customer
    error whatever the project.  Otherwise the project is matched against
    the project names of the rows of the resolved customer only.  If that
    best match scores at most 80 the call raises the no-close-match error
    naming it (there is no empty result); if it scores above 80 the rows
    kept are exactly the rows of the ledger with the resolved customer and
    the resolved project, there is at least one, and the metric is
    computed row-wise on them. *)
Theorem C2_customer_then_project
  (similarity : string -> string -> Z) (df : DataFrame)
  (metric c p n : string) (s : Z) :
  well_formed df = true ->
  truthy (Some c) = true -> truthy (Some p) = true ->
  extractOne similarity c (unique (col CustomerName df)) = Some (n, s) ->
  ((s <= 80)%Z ->
     get_data similarity df metric (Some c) (Some p)
     = Raise (ValueError ("No close match found for customer '" ++ c
                          ++ "'. Did you mean '" ++ n ++ "'?")))
  /\ ((s > 80)%Z ->
      exists (pn : string) (ps : Z),
        extractOne similarity p
          (unique (col ProjectName (loc_eq CustomerName n df)))
        = Some (pn, ps)
        /\ In pn (col ProjectName (loc_eq CustomerName n df))
        /\ ((ps <= 80)%Z ->
            get_data similarity df metric (Some c) (Some p)
            = Raise (ValueError ("No close match found for project '" ++ p
                                 ++ "'. Did you mean '" ++ pn ++ "'?")))
        /\ ((ps > 80)%Z ->
            rows (loc_eq ProjectName pn (loc_eq CustomerName n df)) <> []
            /\ (forall r,
                 In r (rows (loc_eq ProjectName pn (loc_eq CustomerName n df)))
                 <-> In r (rows df) /\ CustomerName r = n /\ ProjectName r = pn)
            /\ get_data similarity df metric (Some c) (Some p)
               = per_row_metric (lower metric)
                   (loc_eq ProjectName pn (loc_eq CustomerName n df)))).
Proof.
  intros W Tc Tp E. rewrite no_match_msg_customer.
  setoid_rewrite no_match_msg_project. split.
  - intros Hs. apply get_data_customer_raise.
    now apply (narrow_reject similarity _ _ _ _ s).
  - intros Hs.
    pose proof (narrow_accept similarity "customer" _ _ _ _ _ Tc E Hs) as H1.
    destruct (extractOne_inv _ _ _ _ _ E) as (Hn & _).
    pose proof (loc_eq_nonempty _ _ _ Hn) as NE.
    assert (unique (col ProjectName (loc_eq CustomerName n df)) <> []) as NE'.
    { intros U. apply unique_nil_inv in U. unfold col in U.
      apply map_eq_nil in U. contradiction. }
    destruct (extractOne_some similarity p _ NE')
      as (pn & ps & E2 & Hpn & _ & _).
    exists pn, ps. split; [exact E2|]. split; [now rewrite <- unique_In|].
    split.
    + intros Hps.
      apply (get_data_project_raise similarity df _ _ _ _ _ _ H1).
      now apply (narrow_reject similarity _ _ _ _ ps).
    + intros Hps.
      pose proof (narrow_accept similarity "project" _ _ _ _ _ Tp E2 Hps)
        as H2.
      split; [now apply loc_eq_nonempty|]. split.
      * intros r. rewrite !loc_eq_rows. tauto.
      * rewrite (get_data_steps _ _ _ _ _ _ _ _ _ H1 H2).
        rewrite (well_formed_names CustomerName df n W (or_introl eq_refl) Hn).
        reflexivity.
Qed.

Lemma C2_customer_then_project_witness :
  get_data caseless_similarity acme_ledger "gross_margin"
    (Some "acme") (Some "zzz")
  = Raise (ValueError
             "No close match found for project 'zzz'. Did you mean 'Web'?").
Proof.
  destruct (C2_customer_then_project caseless_similarity acme_ledger
              "gross_margin" "acme" "zzz" "Acme" 100%Z
              eq_refl eq_refl eq_refl eq_refl) as [_ H].
  destruct H as (pn & ps & E & _ & H & _); [lia|].
  vm_compute in E. inversion E; subst pn ps.
  apply H. lia.
Defined.

(** C8, the claim as stated, fails.  The ledger lists the customers ACME
    and Acme, in that order.  The scorer cannot tell them apart (both score
    100 against the query Acme), the first one met wins, and resolving the
    canonical name Acme returns ACME: the confidence is 100, but the name
    is not the one asked for, and the frame is narrowed to the rows of
    ACME. *)
Lemma C8_counterexample :
  In "Acme" (unique (col CustomerName mixed_case_ledger))
  /\ caseless_similarity "Acme" "Acme" = 100%Z
  /\ extractOne caseless_similarity "Acme"
       (unique (col CustomerName mixed_case_ledger))
     = Some ("ACME", 100%Z)
  /\ narrow caseless_similarity "customer" CustomerName (Some "Acme")
       mixed_case_ledger
     = Ok (Some "ACME", loc_eq CustomerName "ACME" mixed_case_ledger)
  /\ rows (loc_eq CustomerName "ACME" mixed_case_ledger)
     = [mkRow "ACME" "Web" 100 40 10]
  /\ "ACME" <> "Acme".
Proof.
  split; [simpl; tauto|].
  repeat (split; [reflexivity|]). discriminate.
Qed.

(** C8, as amended.  Let the scorer never exceed 100 and give 100 to a
    string against itself.  Resolving a query that is one of the distinct
    names of the column returns confidence 100 together with the first
    distinct name (in order of first appearance) that scores 100 against
    the query, and the match is accepted.  That name is the query itself
    whenever the query is the only distinct name scoring 100 against it. *)
Theorem C8_exact_name_resolution
  (similarity : string -> string -> Z) (kind : string) (f : Row -> string)
  (df : DataFrame) (q : string) :
  (forall a b, (similarity a b <= 100)%Z) ->
  similarity q q = 100%Z ->
  In q (unique (col f df)) ->
  exists (best : string) (l1 l2 : list string),
    unique (col f df) = l1 ++ best :: l2
    /\ similarity q best = 100%Z
    /\ (forall n, In n l1 -> (similarity q n < 100)%Z)
    /\ extractOne similarity q (unique (col f df)) = Some (best, 100%Z)
    /\ (truthy (Some q) = true ->
        narrow similarity kind f (Some q) df
        = Ok (Some best, loc_eq f best df))
    /\ ((forall n, In n (unique (col f df)) ->
           similarity q n = 100%Z -> n = q) ->
        best = q).
Proof.
  intros Hmax Hq Hin.
  destruct (first_such (fun n => (similarity q n =? 100)%Z) _ q Hin)
    as (l1 & x & l2 & U & Hx & Hl1).
  { now apply Z.eqb_eq. }
  apply Z.eqb_eq in Hx.
  assert (forall n, In n l1 -> (similarity q n < 100)%Z) as Hlt.
  { intros n Hn. specialize (Hl1 n Hn). apply Z.eqb_neq in Hl1.
    specialize (Hmax q n). lia. }
  assert (extractOne similarity q (unique (col f df)) = Some (x, 100%Z)) as E.
  { rewrite U, <- Hx. apply extractOne_first_max; rewrite Hx; auto. }
  exists x, l1, l2. repeat split; auto.
  - intros T. apply (narrow_accept similarity kind f q x 100); auto. lia.
  - intros Huniq. apply Huniq; [|exact Hx].
    rewrite U. apply in_or_app. right. now left.
Qed.

Lemma C8_exact_name_resolution_witness :
  exists best : string,
    extractOne caseless_similarity "Beta" (unique (col CustomerName acme_ledger))
    = Some (best, 100%Z)
    /\ best = "Beta".
Proof.
  destruct (C8_exact_name_resolution caseless_similarity "customer"
              CustomerName acme_ledger "Beta")
    as (best & l1 & l2 & _ & _ & _ & E & _ & Hb).
  - intros a b. unfold caseless_similarity.
    destruct (String.eqb (lower a) (lower b)); lia.
  - reflexivity.
  - simpl. tauto.
  - exists best. split; [exact E|]. apply Hb.
    intros n Hn. simpl in Hn.
    destruct Hn as [<-|[<-|[]]]; [discriminate | reflexivity].
Defined.

(* ================================================================== *)
(** * Facts about dictionaries *)
(* ================================================================== *)

Section DictFacts.
Context {V : Type}.
Implicit Types (d acc src : dict V) (k : string) (v : V).

Lemma dict_get_set_same k v d : dict_get k (dict_set k v d) = Ok v.
Proof.
  induction d as [|[k' v'] d IH]; simpl.
  - now rewrite String.eqb_refl.
  - destruct (String.eqb k' k) eqn:E; simpl; rewrite E; auto.
Qed.

Lemma dict_get_set_other k k' v d :
  k' <> k -> dict_get k (dict_set k' v d) = dict_get k d.
Proof.
  intros N. induction d as [|[k0 v0] d IH]; simpl.
  - apply String.eqb_neq in N. now rewrite N.
  - destruct (String.eqb k0 k') eqn:E; simpl.
    + apply String.eqb_eq in E. subst k0.
      apply String.eqb_neq in N. now rewrite N.
    + now rewrite IH.
Qed.

Lemma keys_dict_set_absent k v d :
  ~ In k (keys d) -> dict_set k v d = d ++ [(k, v)].
Proof.
  induction d as [|[k' v'] d IH]; simpl; intros N; [reflexivity|].
  destruct (String.eqb_spec k' k) as [->|_]; [tauto|].
  f_equal. apply IH. tauto.
Qed.

Lemma keys_dict_set_present k v d :
  In k (keys d) -> keys (dict_set k v d) = keys d.
Proof.
  induction d as [|[k' v'] d IH]; simpl; intros H; [contradiction|].
  destruct (String.eqb_spec k' k) as [->|N]; [reflexivity|].
  simpl. f_equal. apply IH. destruct H; [contradiction|assumption].
Qed.

Lemma dict_set_middle k v v' (d1 d2 : dict V) :
  ~ In k (keys d1) ->
  dict_set k v' (d1 ++ (k, v) :: d2) = d1 ++ (k, v') :: d2.
Proof.
  induction d1 as [|[k0 v0] d1 IH]; simpl; intros N.
  - now rewrite String.eqb_refl.
  - destruct (String.eqb_spec k0 k) as [->|_]; [tauto|].
    f_equal. apply IH. tauto.
Qed.

Lemma dict_get_middle k v (d1 d2 : dict V) :
  ~ In k (keys d1) -> dict_get k (d1 ++ (k, v) :: d2) = Ok v.
Proof.
  induction d1 as [|[k0 v0] d1 IH]; simpl; intros N.
  - now rewrite String.eqb_refl.
  - destruct (String.eqb_spec k0 k) as [->|_]; [tauto|].
    apply IH. tauto.
Qed.

Lemma dict_get_ok_iff k d : is_ok (dict_get k d) = mem k (keys d).
Proof.
  unfold mem. induction d as [|[k' v'] d IH]; simpl; [reflexivity|].
  rewrite (String.eqb_sym k k').
  destruct (String.eqb k' k); simpl; auto.
Qed.

Lemma dict_get_missing k d :
  mem k (keys d) = false -> dict_get k d = Raise (KeyError k).
Proof.
  unfold mem. induction d as [|[k' v'] d IH]; simpl; [reflexivity|].
  rewrite (String.eqb_sym k k').
  destruct (String.eqb k' k); simpl; [discriminate|auto].
Qed.

Lemma dict_get_raise_inv k d (e : exn) :
  dict_get k d = Raise e -> e = KeyError k.
Proof.
  induction d as [|[k' v'] d IH]; simpl.
  - congruence.
  - destruct (String.eqb k' k); [discriminate|auto].
Qed.

Lemma dict_comp_select (ks : list string) src : forall acc,
  (forall k, In k ks -> mem k (keys src) = true) ->
  dict_comp ks src acc = Ok (select ks src acc).
Proof.
  induction ks as [|k ks IH]; intros acc H; simpl; [reflexivity|].
  assert (is_ok (dict_get k src) = true) as Hk.
  { rewrite dict_get_ok_iff. apply H. now left. }
  unfold select. simpl.
  destruct (dict_get k src) as [v|e]; [|discriminate].
  simpl. apply IH. intros k' Hk'. apply H. now right.
Qed.

(** The comprehension stops at the first key that is missing. *)
Lemma dict_comp_first_missing (l1 l2 : list string) k src : forall acc,
  (forall k', In k' l1 -> mem k' (keys src) = true) ->
  mem k (keys src) = false ->
  dict_comp (l1 ++ k :: l2) src acc = Raise (KeyError k).
Proof.
  induction l1 as [|k' l1 IH]; intros acc H Hk; simpl.
  - now rewrite dict_get_missing.
  - assert (is_ok (dict_get k' src) = true) as Hk'.
    { rewrite dict_get_ok_iff. apply H. now left. }
    destruct (dict_get k' src) as [v|e]; [|discriminate].
    simpl. apply IH; auto. intros x Hx. apply H. now right.
Qed.

Lemma dict_comp_raise_inv (ks : list string) src (e : exn) : forall acc,
  dict_comp ks src acc = Raise e -> exists k, e = KeyError k.
Proof.
  induction ks as [|k ks IH]; intros acc; simpl; [discriminate|].
  destruct (dict_get k src) as [v|e'] eqn:E; simpl.
  - apply IH.
  - intros H. inversion H; subst. exists k.
    now apply dict_get_raise_inv in E.
Qed.

(** [select] only looks at the entries of the selected keys. *)
Lemma select_ext (ks : list string) (s1 s2 : dict V) : forall acc,
  (forall k, In k ks -> dict_get k s1 = dict_get k s2) ->
  select ks s1 acc = select ks s2 acc.
Proof.
  unfold select.
  induction ks as [|k ks IH]; intros acc H; simpl; [reflexivity|].
  rewrite (H k) by now left. apply IH. intros k' Hk'. apply H. now right.
Qed.

(** Each selected key ends up bound to the value it has in the source. *)
Lemma dict_get_select (ks : list string) src k : forall acc,
  (forall k', In k' ks -> mem k' (keys src) = true) ->
  In k ks \/ dict_get k acc = dict_get k src ->
  dict_get k (select ks src acc) = dict_get k src.
Proof.
  unfold select.
  induction ks as [|k0 ks IH]; intros acc H Hk; simpl.
  - destruct Hk as [[]|Hk]. exact Hk.
  - assert (is_ok (dict_get k0 src) = true) as H0.
    { rewrite dict_get_ok_iff. apply H. now left. }
    destruct (dict_get k0 src) as [v0|e] eqn:E0; [|discriminate].
    apply IH; [intros k' Hk'; apply H; now right|].
    destruct (String.eqb_spec k0 k) as [->|N].
    + right. now rewrite dict_get_set_same.
    + rewrite dict_get_set_other by exact N.
      destruct Hk as [[->|Hk]|Hk]; [contradiction | now left | now right].
Qed.

Lemma mem_In (k : string) (l : list string) : mem k l = true <-> In k l.
Proof.
  unfold mem. rewrite existsb_exists. split.
  - intros (x & Hx & E). apply String.eqb_eq in E. now subst.
  - intros H. exists k. split; [exact H | apply String.eqb_refl].
Qed.

(** Selecting the same keys a second time changes nothing. *)
Lemma select_idempotent (ks : list string) src :
  (forall k, In k ks -> mem k (keys src) = true) ->
  select ks (select ks src []) [] = select ks src [].
Proof.
  intros H. apply select_ext. intros k Hk.
  apply dict_get_select; auto.
Qed.

Lemma keys_select_mem (ks : list string) src k :
  (forall k', In k' ks -> mem k' (keys src) = true) ->
  In k ks -> mem k (keys (select ks src [])) = true.
Proof.
  intros H Hk. rewrite <- dict_get_ok_iff.
  rewrite dict_get_select by auto.
  rewrite dict_get_ok_iff. now apply H.
Qed.

End DictFacts.

(* ================================================================== *)
(** * Facts about stable sorting *)
(* ================================================================== *)

Section StableSortFacts.
Context {A : Type} (before : A -> A -> bool).

Lemma insert_perm (x : A) (l : list A) : Permutation (insert before x l) (x :: l).
Proof.
  induction l as [|y l IH]; simpl; [reflexivity|].
  destruct (before y x); [|reflexivity].
  rewrite IH. apply perm_swap.
Qed.

Lemma stable_sort_perm (l : list A) : Permutation (stable_sort before l) l.
Proof.
  induction l as [|x l IH]; simpl; [reflexivity|].
  rewrite insert_perm. now constructor.
Qed.



(** With a strict order whose complement is transitive, the result is
    sorted: no element has to precede an element placed before it. *)
Hypothesis before_asym : forall a b, before a b = true -> before b a = false.
Hypothesis before_negtrans :
  forall a b c, before b a = false -> before c b = false -> before c a = false.

Lemma insert_sorted (x : A) (l : list A) :
  StronglySorted (fun a b => before b a = false) l ->
  StronglySorted (fun a b => before b a = false) (insert before x l).
Proof.
  induction 1 as [|y l S IH F]; simpl.
  - constructor; constructor.
  - destruct (before y x) eqn:B.
    + constructor; [exact IH|].
      assert (Forall (fun b => before b y = false) (x :: l)) as F'.
      { constructor; [now apply before_asym | exact F]. }
      rewrite Forall_forall in *. intros b Hb. apply F'.
      eapply Permutation_in; [apply insert_perm | exact Hb].
    + constructor; [now constructor|].
      constructor; [exact B|].
      rewrite Forall_forall in *. intros b Hb.
      eapply before_negtrans; [exact B | now apply F].
Qed.

Lemma stable_sort_sorted (l : list A) :
  StronglySorted (fun a b => before b a = false) (stable_sort before l).
Proof.
  induction l as [|x l IH]; simpl; [constructor | now apply insert_sorted].
Qed.

End StableSortFacts.

Lemma sort_by_revenue_perm (es : list summary) :
  Permutation (sort_by_revenue es) es.
Proof. apply stable_sort_perm. Qed.




(* ================================================================== *)
(** * [compare_performance] *)
(* ================================================================== *)

Lemma keys_metric_table (r c o : Q) : keys (metric_table r c o) = valid_metrics.
Proof. reflexivity. Qed.

Lemma validate_metrics_ok (ms : list string) :
  (forall m, In m ms -> mem (lower m) valid_metrics = true) ->
  validate_metrics ms = Ok tt.
Proof.
  induction ms as [|m ms IH]; intros H; cbn [validate_metrics];
    [reflexivity|].
  rewrite (H m) by now left. apply IH. intros x Hx. apply H. now right.
Qed.

Lemma validate_metrics_first_bad (ms : list string) (bad : string) :
  find (fun m => negb (mem (lower m) valid_metrics)) ms = Some bad ->
  validate_metrics ms = Raise (unknown_metric_cmp bad).
Proof.
  induction ms as [|m ms IH]; cbn [validate_metrics find]; [discriminate|].
  destruct (mem (lower m) valid_metrics); cbn [negb]; [exact IH|].
  intros H. now inversion H.
Qed.

Lemma find_some_of_In {A : Type} (p : A -> bool) (l : list A) (x : A) :
  In x l -> p x = true ->
  exists y l1 l2,
    find p l = Some y /\ l = l1 ++ y :: l2 /\ p y = true
    /\ forall z, In z l1 -> p z = false.
Proof.
  intros Hin Hp.
  destruct (first_such p l x Hin Hp) as (l1 & y & l2 & -> & Hy & Hl1).
  exists y, l1, l2. repeat split; auto.
  clear Hin. induction l1 as [|a l1 IH]; simpl.
  - now rewrite Hy.
  - rewrite (Hl1 a) by now left. apply IH. intros z Hz. apply Hl1. now right.
Qed.

Lemma summarise_ok (df : DataFrame) (ms : list string)
  (groups : list (string * DataFrame)) : forall acc,
  (forall m, In m ms -> mem m valid_metrics = true) ->
  summarise df ms groups acc = Ok (acc ++ map (summary_of df ms) groups).
Proof.
  induction groups as [|[k g] groups IH]; intros acc H; simpl.
  - now rewrite app_nil_r.
  - rewrite dict_comp_select by (intros m Hm; now apply H).
    cbn [bind]. rewrite IH by exact H.
    now rewrite <- app_assoc.
Qed.

Lemma summarise_first_missing (df : DataFrame) (l1 l2 : list string)
  (bad : string) (g : string * DataFrame) (groups : list (string * DataFrame))
  (acc : list summary) :
  (forall m, In m l1 -> mem m valid_metrics = true) ->
  mem bad valid_metrics = false ->
  summarise df (l1 ++ bad :: l2) (g :: groups) acc = Raise (KeyError bad).
Proof.
  intros H1 H2. destruct g as [k g]. simpl.
  now rewrite dict_comp_first_missing.
Qed.

Lemma summarise_raise_inv (df : DataFrame) (ms : list string)
  (groups : list (string * DataFrame)) (e : exn) : forall acc,
  summarise df ms groups acc = Raise e -> exists k, e = KeyError k.
Proof.
  induction groups as [|[k g] groups IH]; intros acc; simpl; [discriminate|].
  match goal with |- context [dict_comp ?a ?b ?c] =>
    destruct (dict_comp a b c) as [sel|e'] eqn:E end; cbn [bind].
  - apply IH.
  - intros H. inversion H; subst. eapply dict_comp_raise_inv; eauto.
Qed.

Lemma project_results_raise_inv (ms : list string) (e : exn)
  (entities : list string) : forall results,
  project_results ms entities results = Raise e -> exists k, e = KeyError k.
Proof.
  induction entities as [|k entities IH]; intros results; simpl;
    [discriminate|].
  destruct (dict_get k results) as [cur|e1] eqn:E1; cbn [bind].
  2:{ intros H. inversion H; subst. exists k.
      now apply dict_get_raise_inv in E1. }
  destruct (dict_comp ms cur []) as [sel|e2] eqn:E2; cbn [bind].
  - apply IH.
  - intros H. inversion H; subst. eapply dict_comp_raise_inv; eauto.
Qed.

(** Filling the result dictionary from summaries with distinct names lists
    them in order. *)
Lemma fill_results_from (es : list summary) : forall acc : dict (dict cell),
  NoDup (keys acc ++ map name es) ->
  fold_left (fun results e => dict_set (name e) (metrics e) results) es acc
  = acc ++ map entry_of es.
Proof.
  induction es as [|e es IH]; intros acc H; simpl.
  - now rewrite app_nil_r.
  - simpl in H. pose proof (NoDup_remove_2 _ _ _ H) as N.
    rewrite keys_dict_set_absent.
    2:{ intros I. apply N. apply in_or_app. now left. }
    rewrite IH.
    + now rewrite <- app_assoc.
    + unfold keys in *. rewrite map_app. simpl. rewrite <- app_assoc.
      exact H.
Qed.

Lemma fill_results_map (es : list summary) :
  NoDup (map name es) -> fill_results es = map entry_of es.
Proof. intros H. unfold fill_results. now rewrite fill_results_from. Qed.

(** The closing loop re-selects the metrics of every entry, in place. *)
Lemma project_results_from (ms : list string) (d2 : dict (dict cell)) :
  forall d1 : dict (dict cell),
  NoDup (keys (d1 ++ d2)) ->
  (forall kv, In kv d2 ->
     forall m, In m ms -> mem m (keys (snd kv)) = true) ->
  project_results ms (keys d2) (d1 ++ d2)
  = Ok (d1 ++ map (project_entry ms) d2).
Proof.
  induction d2 as [|[k v] d2 IH]; intros d1 N H; simpl.
  - reflexivity.
  - assert (~ In k (keys d1)) as Nk.
    { unfold keys in N. rewrite map_app in N. simpl in N.
      apply NoDup_remove_2 in N. intros I. apply N.
      apply in_or_app. now left. }
    rewrite dict_get_middle by exact Nk. cbn [bind].
    rewrite dict_comp_select by (apply (H (k, v)); now left). cbn [bind].
    rewrite dict_set_middle by exact Nk.
    change (d1 ++ (k, select ms v []) :: d2)
      with (d1 ++ [(k, select ms v [])] ++ d2).
    rewrite app_assoc. rewrite IH.
    + unfold project_entry at 2. simpl. now rewrite <- app_assoc.
    + unfold keys in *. rewrite <- app_assoc, map_app in *. exact N.
    + intros kv Hkv. apply H. now right.
Qed.

Lemma project_results_map (ms : list string) (d : dict (dict cell)) :
  NoDup (keys d) ->
  (forall kv, In kv d -> forall m, In m ms -> mem m (keys (snd kv)) = true) ->
  project_results ms (keys d) d = Ok (map (project_entry ms) d).
Proof. intros N H. now apply (project_results_from ms d []). Qed.

Lemma valid_lower (m : string) :
  mem m valid_metrics = true -> lower m = m.
Proof.
  intros H. apply mem_In in H. simpl in H.
  destruct H as [<-|[<-|[<-|[]]]]; reflexivity.
Qed.

Lemma In_dict_set {V : Type} (k : string) (v : V) (d : dict V)
  (kv : string * V) :
  In kv (dict_set k v d) -> kv = (k, v) \/ In kv d.
Proof.
  induction d as [|[k' v'] d IH]; simpl.
  - intros [<-|[]]. now left.
  - destruct (String.eqb_spec k' k) as [->|N]; simpl.
    + intros [<-|H]; [now left | right; now right].
    + intros [<-|H]; [right; now left|].
      destruct (IH H) as [->|H']; [now left | right; now right].
Qed.

Lemma NoDup_keys_dict_set {V : Type} (k : string) (v : V) (d : dict V) :
  NoDup (keys d) -> NoDup (keys (dict_set k v d)).
Proof.
  intros N. destruct (in_dec string_dec k (keys d)) as [I|NI].
  - now rewrite keys_dict_set_present.
  - rewrite keys_dict_set_absent by exact NI.
    unfold keys in *. rewrite map_app. simpl.
    apply NoDup_app_remove_l with (l := []). simpl.
    eapply Permutation_NoDup; [apply Permutation_cons_append|].
    now constructor.
Qed.

Lemma groupby_keys (f : Row -> string) (df : DataFrame) :
  map fst (groupby f df) = sorted (unique (col f df)).
Proof.
  unfold groupby. rewrite map_map. simpl. apply map_id.
Qed.

Lemma groupby_group (f : Row -> string) (df : DataFrame)
  (g : string * DataFrame) :
  In g (groupby f df) ->
  In (fst g) (unique (col f df)) /\ snd g = loc_eq f (fst g) df.
Proof.
  unfold groupby. rewrite in_map_iff. intros (k & <- & Hk). simpl.
  split; [|reflexivity].
  eapply Permutation_in; [apply stable_sort_perm | exact Hk].
Qed.

Lemma groupby_NoDup (f : Row -> string) (df : DataFrame) :
  NoDup (map fst (groupby f df)).
Proof.
  rewrite groupby_keys.
  eapply Permutation_NoDup;
    [symmetry; apply stable_sort_perm | apply unique_NoDup].
Qed.

Lemma summary_names (df : DataFrame) (ms : list string)
  (groups : list (string * DataFrame)) :
  map name (map (summary_of df ms) groups) = map fst groups.
Proof. rewrite map_map. reflexivity. Qed.

Lemma limit_top_n_firstn (top_n : option Z) (es : list summary) :
  exists k, limit_top_n top_n es = firstn k es.
Proof.
  destruct top_n as [n|]; simpl.
  - destruct (n >? 0)%Z.
    + now exists (Z.to_nat n).
    + exists (List.length es). now rewrite firstn_all.
  - exists (List.length es). now rewrite firstn_all.
Qed.

Lemma firstn_In {A : Type} (k : nat) (l : list A) (x : A) :
  In x (firstn k l) -> In x l.
Proof.
  intros H. rewrite <- (firstn_skipn k l). apply in_or_app. now left.
Qed.

Lemma firstn_NoDup_map {A B : Type} (f : A -> B) (k : nat) (l : list A) :
  NoDup (map f l) -> NoDup (map f (firstn k l)).
Proof.
  intros H. rewrite <- (firstn_skipn k l), map_app in H.
  now apply NoDup_app_remove_r in H.
Qed.

Lemma ranked_NoDup (df : DataFrame) (f : Row -> string) (ms : list string) :
  NoDup (map name (ranked df f ms)).
Proof.
  unfold ranked.
  eapply Permutation_NoDup.
  - apply Permutation_map. symmetry. apply sort_by_revenue_perm.
  - rewrite summary_names. apply groupby_NoDup.
Qed.

Lemma ranked_In (df : DataFrame) (f : Row -> string) (ms : list string)
  (e : summary) :
  In e (ranked df f ms) ->
  In (name e) (unique (col f df))
  /\ e = summary_of df ms (name e, loc_eq f (name e) df).
Proof.
  intros H. unfold ranked in H.
  apply (Permutation_in _ (sort_by_revenue_perm _)) in H.
  apply in_map_iff in H. destruct H as ([k g] & <- & Hg).
  apply groupby_group in Hg. simpl in *. destruct Hg as [Hk ->].
  split; [exact Hk | reflexivity].
Qed.

(** The value of [compare_performance] for a valid entity type and metric
    names taken from the three lowercase names. *)
Lemma compare_performance_value (df : DataFrame) (entity_type : string)
  (ms : list string) (top_n : option Z) :
  mem (lower entity_type) ["customer"; "project"] = true ->
  (forall m, In m ms -> mem m valid_metrics = true) ->
  compare_performance df entity_type (Some ms) top_n
  = Ok (map (project_entry ms)
          (dict_set "OVERALL" (part_table df df)
             (map entry_of
                (limit_top_n top_n (ranked df (entity_col entity_type) ms))))).
Proof.
  intros Het Hms. unfold compare_performance. rewrite Het. cbn [negb].
  rewrite validate_metrics_ok.
  2:{ intros m Hm. rewrite valid_lower; auto. }
  cbn [bind]. fold (entity_col entity_type).
  rewrite summarise_ok by exact Hms. cbn [bind app].
  fold (ranked df (entity_col entity_type) ms).
  destruct (limit_top_n_firstn top_n (ranked df (entity_col entity_type) ms))
    as [k Ek].
  rewrite fill_results_map.
  2:{ rewrite Ek. apply firstn_NoDup_map. apply ranked_NoDup. }
  fold (part_table df df).
  apply project_results_map.
  - apply NoDup_keys_dict_set. unfold keys. rewrite map_map. simpl.
    rewrite Ek. apply firstn_NoDup_map. apply ranked_NoDup.
  - intros kv Hkv m Hm. apply In_dict_set in Hkv.
    destruct Hkv as [->|Hkv].
    + cbn [snd]. unfold part_table. rewrite keys_metric_table.
      now apply Hms.
    + apply in_map_iff in Hkv. destruct Hkv as (e & <- & He).
      rewrite Ek in He. apply firstn_In in He.
      apply ranked_In in He. destruct He as [_ ->].
      cbn [entry_of summary_of metrics snd fst].
      apply keys_select_mem; [|exact Hm].
      intros m' Hm'. unfold part_table. rewrite keys_metric_table.
      now apply Hms.
Qed.

(* ================================================================== *)
(** * Unknown metrics *)
(* ================================================================== *)

Lemma unknown_metric_text (metric : string) :
  ValueError ("Unknown metric: " ++ metric
    ++ ". Available metrics are 'gross_margin', 'revenue', 'ebitda'.")
  = unknown_metric metric.
Proof. reflexivity. Qed.

Lemma unknown_metric_cmp_text (metric : string) :
  ValueError ("Unknown metric: " ++ metric
    ++ ". Available metrics are revenue, gross_margin, ebitda")
  = unknown_metric_cmp metric.
Proof. reflexivity. Qed.

Lemma not_valid_inv (metric : string) :
  mem metric valid_metrics = false ->
  String.eqb metric "revenue" = false
  /\ String.eqb metric "gross_margin" = false
  /\ String.eqb metric "ebitda" = false.
Proof.
  unfold mem, valid_metrics. cbn [existsb]. intros H.
  apply orb_false_iff in H. destruct H as [H1 H].
  apply orb_false_iff in H. destruct H as [H2 H].
  apply orb_false_iff in H. destruct H as [H3 _]. auto.
Qed.

Lemma overall_metric_unknown (metric : string) (df : DataFrame) :
  mem metric valid_metrics = false ->
  overall_metric metric df = Raise (unknown_metric metric).
Proof.
  intros H. destruct (not_valid_inv _ H) as (H1 & H2 & H3).
  unfold overall_metric. now rewrite H1, H2, H3.
Qed.

Lemma per_row_metric_unknown (metric : string) (df : DataFrame) :
  mem metric valid_metrics = false ->
  per_row_metric metric df = Raise (unknown_metric metric).
Proof.
  intros H. destruct (not_valid_inv _ H) as (H1 & H2 & H3).
  unfold per_row_metric. now rewrite H1, H2, H3.
Qed.

Lemma branches_not_unknown (metric : string) (df : DataFrame) :
  mem metric valid_metrics = true ->
  raises_unknown_metric (overall_metric metric df) = false
  /\ raises_unknown_metric (per_row_metric metric df) = false.
Proof.
  intros H. apply mem_In in H. simpl in H.
  destruct H as [<-|[<-|[<-|[]]]];
    unfold overall_metric, per_row_metric, col_OPEX;
    cbn [String.eqb Ascii.eqb Bool.eqb];
    destruct (has_OPEX df); split; reflexivity.
Qed.

Lemma narrow_raise_not_unknown (similarity : string -> string -> Z)
  (kind : string) (f : Row -> string) (arg : option string)
  (df : DataFrame) (e : exn) :
  narrow similarity kind f arg df = Raise e -> is_unknown_metric e = false.
Proof.
  destruct arg as [[|a q]|]; simpl; try discriminate.
  destruct (extractOne similarity (String a q) (unique (col f df)))
    as [[best score]|].
  - destruct (score >? 80)%Z; [discriminate|].
    intros H. inversion H. reflexivity.
  - intros H. inversion H. reflexivity.
Qed.

Lemma get_data_valid_not_unknown (similarity : string -> string -> Z)
  (df : DataFrame) (metric : string) (c p : option string) :
  mem (lower metric) valid_metrics = true ->
  raises_unknown_metric (get_data similarity df metric c p) = false.
Proof.
  intros H.
  destruct (narrow similarity "customer" CustomerName c df)
    as [[c' df1]|e] eqn:E1.
  2:{ rewrite (get_data_customer_raise _ _ _ _ _ _ E1). simpl.
      eapply narrow_raise_not_unknown; eauto. }
  destruct (narrow similarity "project" ProjectName p df1)
    as [[p' df2]|e] eqn:E2.
  2:{ rewrite (get_data_project_raise _ _ _ _ _ _ _ _ E1 E2). simpl.
      eapply narrow_raise_not_unknown; eauto. }
  rewrite (get_data_steps _ _ _ _ _ _ _ _ _ E1 E2).
  destruct (branches_not_unknown (lower metric) df2 H).
  now destruct (negb (truthy c') && negb (truthy p')).
Qed.

Lemma get_data_unknown_not_ok (similarity : string -> string -> Z)
  (df : DataFrame) (metric : string) (c p : option string) :
  mem (lower metric) valid_metrics = false ->
  is_ok (get_data similarity df metric c p) = false.
Proof.
  intros H.
  destruct (narrow similarity "customer" CustomerName c df)
    as [[c' df1]|e] eqn:E1.
  2:{ now rewrite (get_data_customer_raise _ _ _ _ _ _ E1). }
  destruct (narrow similarity "project" ProjectName p df1)
    as [[p' df2]|e] eqn:E2.
  2:{ now rewrite (get_data_project_raise _ _ _ _ _ _ _ _ E1 E2). }
  rewrite (get_data_steps _ _ _ _ _ _ _ _ _ E1 E2).
  rewrite overall_metric_unknown, per_row_metric_unknown by exact H.
  now destruct (negb (truthy c') && negb (truthy p')).
Qed.

Lemma compare_performance_not_unknown (df : DataFrame)
  (entity_type : string) (ms : list string) (top_n : option Z) :
  (forall m, In m ms -> mem (lower m) valid_metrics = true) ->
  raises_unknown_metric (compare_performance df entity_type (Some ms) top_n)
  = false.
Proof.
  intros H. unfold compare_performance.
  destruct (negb (mem (lower entity_type) ["customer"; "project"]));
    [reflexivity|].
  rewrite validate_metrics_ok by exact H. cbn [bind].
  match goal with |- context [summarise ?a ?b ?c ?d] =>
    destruct (summarise a b c d) as [es|e] eqn:E end; cbn [bind].
  - match goal with |- raises_unknown_metric ?r = false =>
      destruct r as [res|e] eqn:E' end; [reflexivity|].
    apply project_results_raise_inv in E'. destruct E' as [k ->].
    reflexivity.
  - apply summarise_raise_inv in E. destruct E as [k ->]. reflexivity.
Qed.

(** C7, the claim as stated, fails.  The metric bogus is not one of the
    three names.  [get_data] checks the metric only after the filters are
    resolved: with a customer that has no close match it raises the
    no-close-match error, not an unknown-metric error.  Likewise
    [compare_performance] checks the entity type first: with an invalid
    entity type an invalid metric name is not reported. *)
Lemma C7_counterexample :
  mem (lower "bogus") valid_metrics = false
  /\ get_data caseless_similarity acme_ledger "bogus" (Some "zzz") None
     = Raise (ValueError
                "No close match found for customer 'zzz'. Did you mean 'Acme'?")
  /\ raises_unknown_metric
       (get_data caseless_similarity acme_ledger "bogus" (Some "zzz") None)
     = false
  /\ compare_performance acme_ledger "region" (Some ["bogus"]) None
     = Raise (ValueError "entity_type must be either 'customer' or 'project'")
  /\ raises_unknown_metric
       (compare_performance acme_ledger "region" (Some ["bogus"]) None)
     = false.
Proof. repeat split; reflexivity. Qed.

(** C7, as amended.  A metric name is unknown when its lowercase form is
    none of revenue, gross_margin, ebitda.  For an unknown name
    [get_data] never returns a result, and it raises the unknown-metric
    error, whose message lists the three names, whenever the filter steps
    go through (arguments absent, empty, or resolved); a filter that fails
    raises its own error first.  [compare_performance], called with a valid
    entity type and a list holding an unknown name, raises the
    unknown-metric error for the first unknown name of the list, and does so
    whatever the ledger: no grouping or aggregation is involved.  For known
    names neither tool raises an unknown-metric error. *)
Theorem C7_unknown_metric
  (similarity : string -> string -> Z) (df : DataFrame) (metric : string) :
  (mem (lower metric) valid_metrics = false ->
     (forall c p, is_ok (get_data similarity df metric c p) = false)
     /\ (forall c p c' p' df1 df2,
           narrow similarity "customer" CustomerName c df = Ok (c', df1) ->
           narrow similarity "project" ProjectName p df1 = Ok (p', df2) ->
           get_data similarity df metric c p
           = Raise (ValueError
                      ("Unknown metric: " ++ lower metric
                       ++ ". Available metrics are 'gross_margin', 'revenue', 'ebitda'.")))
     /\ (forall entity_type ms top_n,
           mem (lower entity_type) ["customer"; "project"] = true ->
           In metric ms ->
           exists bad,
             find (fun m => negb (mem (lower m) valid_metrics)) ms = Some bad
             /\ forall df',
                  compare_performance df' entity_type (Some ms) top_n
                  = Raise (ValueError
                             ("Unknown metric: " ++ bad
                              ++ ". Available metrics are revenue, gross_margin, ebitda"))))
  /\ (mem (lower metric) valid_metrics = true ->
      forall c p,
        raises_unknown_metric (get_data similarity df metric c p) = false)
  /\ (forall entity_type ms top_n,
        (forall m, In m ms -> mem (lower m) valid_metrics = true) ->
        raises_unknown_metric
          (compare_performance df entity_type (Some ms) top_n) = false
        /\ raises_unknown_metric
             (compare_performance df entity_type None top_n) = false).
Proof.
  split; [|split].
  - intros H. split; [|split].
    + intros c p. now apply get_data_unknown_not_ok.
    + intros c p c' p' df1 df2 H1 H2.
      rewrite (get_data_steps _ _ _ _ _ _ _ _ _ H1 H2).
      rewrite overall_metric_unknown, per_row_metric_unknown by exact H.
      rewrite unknown_metric_text.
      now destruct (negb (truthy c') && negb (truthy p')).
    + intros entity_type ms top_n Het Hin.
      destruct (find_some_of_In
                  (fun m => negb (mem (lower m) valid_metrics)) ms metric Hin)
        as (bad & l1 & l2 & F & _ & _ & _).
      { now rewrite H. }
      exists bad. split; [exact F|]. intros df'.
      unfold compare_performance. rewrite Het. cbn [negb].
      rewrite (validate_metrics_first_bad _ _ F).
      rewrite unknown_metric_cmp_text. reflexivity.
  - intros H c p. now apply get_data_valid_not_unknown.
  - intros entity_type ms top_n H. split.
    + now apply compare_performance_not_unknown.
    + change (compare_performance df entity_type None top_n)
        with (compare_performance df entity_type
                (Some ["revenue"; "gross_margin"; "ebitda"]) top_n).
      apply compare_performance_not_unknown.
      intros m Hm. simpl in Hm.
      destruct Hm as [<-|[<-|[<-|[]]]]; reflexivity.
Qed.

Lemma C7_unknown_metric_witness :
  get_data caseless_similarity acme_ledger "Bogus" None None
  = Raise (ValueError
             "Unknown metric: bogus. Available metrics are 'gross_margin', 'revenue', 'ebitda'.")
  /\ exists bad,
       find (fun m => negb (mem (lower m) valid_metrics)) ["revenue"; "Bogus"]
       = Some bad
       /\ forall df',
            compare_performance df' "customer" (Some ["revenue"; "Bogus"]) None
            = Raise (ValueError
                       ("Unknown metric: " ++ bad
                        ++ ". Available metrics are revenue, gross_margin, ebitda")).
Proof.
  destruct (C7_unknown_metric caseless_similarity acme_ledger "Bogus")
    as [H _].
  destruct (H eq_refl) as (_ & H1 & H2). split.
  - apply (H1 None None None None acme_ledger acme_ledger); reflexivity.
  - apply (H2 "customer" ["revenue"; "Bogus"] None); [reflexivity|].
    simpl. tauto.
Defined.

(* ================================================================== *)
(** * Claims about [compare_performance] *)
(* ================================================================== *)

Lemma limit_top_n_nil (top_n : option Z) : limit_top_n top_n [] = [].
Proof.
  destruct top_n as [n|]; simpl; [|reflexivity].
  destruct (n >? 0)%Z; [apply firstn_nil | reflexivity].
Qed.

(** C9.  When every requested name is one of the three metrics once
    lowercased, but some name is not written in lowercase, the validation
    lets the list through and the call raises [KeyError] for the first
    name that is not literally a key of the metric table: no result and no
    unknown-metric error. *)
Theorem C9_mixed_case_metric_key_error
  (df : DataFrame) (entity_type : string) (ms : list string)
  (top_n : option Z) :
  mem (lower entity_type) ["customer"; "project"] = true ->
  (forall m, In m ms -> mem (lower m) valid_metrics = true) ->
  (exists m, In m ms /\ mem m valid_metrics = false) ->
  exists bad,
    find (fun m => negb (mem m valid_metrics)) ms = Some bad
    /\ In bad ms
    /\ mem (lower bad) valid_metrics = true
    /\ mem bad valid_metrics = false
    /\ validate_metrics ms = Ok tt
    /\ compare_performance df entity_type (Some ms) top_n
       = Raise (KeyError bad)
    /\ raises_unknown_metric
         (compare_performance df entity_type (Some ms) top_n) = false.
Proof.
  intros Het Hval (m & Hm & Hbad).
  destruct (find_some_of_In (fun m => negb (mem m valid_metrics)) ms m Hm)
    as (bad & l1 & l2 & F & -> & Hb & Hl1).
  { now rewrite Hbad. }
  apply negb_true_iff in Hb.
  assert (In bad (l1 ++ bad :: l2)) as Hin.
  { apply in_or_app. right. now left. }
  assert (forall k, In k l1 -> mem k valid_metrics = true) as Hl1'.
  { intros k Hk. specialize (Hl1 k Hk). now apply negb_false_iff in Hl1. }
  assert (compare_performance df entity_type (Some (l1 ++ bad :: l2)) top_n
          = Raise (KeyError bad)) as E.
  { unfold compare_performance. rewrite Het. cbn [negb].
    rewrite validate_metrics_ok by exact Hval. cbn [bind].
    fold (entity_col entity_type).
    destruct (groupby (entity_col entity_type) df) as [|g groups].
    - cbn [summarise bind]. unfold sort_by_revenue. cbn [stable_sort fold_right].
      rewrite limit_top_n_nil.
      cbn [fill_results fold_left dict_set keys map fst project_results].
      cbn [dict_get String.eqb Ascii.eqb Bool.eqb bind].
      rewrite dict_comp_first_missing; [reflexivity | | ].
      + intros k Hk. rewrite keys_metric_table. now apply Hl1'.
      + now rewrite keys_metric_table.
    - now rewrite summarise_first_missing. }
  exists bad. repeat split; auto.
  - now apply validate_metrics_ok.
  - now rewrite E.
Qed.

Lemma C9_mixed_case_metric_key_error_witness :
  exists bad,
    find (fun m => negb (mem m valid_metrics)) ["ebitda"; "Revenue"] = Some bad
    /\ compare_performance acme_ledger "customer"
         (Some ["ebitda"; "Revenue"]) None
       = Raise (KeyError bad).
Proof.
  destruct (C9_mixed_case_metric_key_error acme_ledger "customer"
              ["ebitda"; "Revenue"] None)
    as (bad & F & _ & _ & _ & _ & E & _).
  - reflexivity.
  - intros m Hm. simpl in Hm. destruct Hm as [<-|[<-|[]]]; reflexivity.
  - exists "Revenue". split; [simpl; tauto | reflexivity].
  - exists bad. split; [exact F | exact E].
Defined.

(** C4 (refuted on the code).  The claim holds as long as no returned
    entity is itself called OVERALL (see [compare_performance_ranking]
    below).  The code writes the overall entry with a plain dictionary
    assignment, so an entity of that name collides with it: on the ledger
    with customers OVERALL (revenue 100) and B (revenue 50) and [top_n = 2],
    the key OVERALL stays in first position instead of coming last, it
    carries the company-wide figures (revenue 150) in place of the
    customer's own, and only one entity entry besides it is returned. *)
Theorem C4_overall_key_collision :
  compare_performance overall_named_ledger "customer" (Some ["revenue"])
    (Some 2%Z)
  = Ok [ ("OVERALL", [("revenue", mkCell 150 1)]);
         ("B", [("revenue", mkCell 50 1)]) ]
  /\ map name (limit_top_n (Some 2%Z)
                 (ranked overall_named_ledger CustomerName ["revenue"]))
     = ["OVERALL"; "B"]
  /\ map revenue (limit_top_n (Some 2%Z)
                    (ranked overall_named_ledger CustomerName ["revenue"]))
     = [100; 50]%Q.
Proof. repeat split; reflexivity. Qed.



Lemma dict_get_map_project (ms : list string) (k : string)
  (d : dict (dict cell)) :
  dict_get k (map (project_entry ms) d)
  = v <- dict_get k d ;; Ok (select ms v []).
Proof.
  induction d as [|[k' v'] d IH]; simpl; [reflexivity|].
  destruct (String.eqb k' k); [reflexivity | exact IH].
Qed.

Lemma part_table_ebitda_no_OPEX (df part : DataFrame) :
  has_OPEX df = false ->
  dict_get "ebitda" (part_table df part)
  = Ok (mkCell (sum (col Revenue part) - sum (col COGS part) - 0)
               (guarded_ratio
                  (sum (col Revenue part) - sum (col COGS part) - 0)
                  (sum (col Revenue part)))).
Proof.
  intros H. unfold part_table, opex_or_zero, in_columns_OPEX.
  rewrite H. reflexivity.
Qed.

(** Without an OPEX column, [compare_performance] takes OPEX as zero: for
    a valid entity type and lowercase metric names that include ebitda the
    call returns a result in which the entry OVERALL and the entry of every
    entity carry ebitda = Revenue - COGS - 0 over their rows. *)
Theorem compare_performance_OPEX_default
  (df : DataFrame) (entity_type : string) (ms : list string)
  (top_n : option Z) :
  has_OPEX df = false ->
  mem (lower entity_type) ["customer"; "project"] = true ->
  (forall m, In m ms -> mem m valid_metrics = true) ->
  In "ebitda" ms ->
  exists res,
    compare_performance df entity_type (Some ms) top_n = Ok res
    /\ (exists overall,
          dict_get "OVERALL" res = Ok overall
          /\ dict_get "ebitda" overall
             = Ok (mkCell (sum (col Revenue df) - sum (col COGS df) - 0)
                     (guarded_ratio
                        (sum (col Revenue df) - sum (col COGS df) - 0)
                        (sum (col Revenue df)))))
    /\ (forall k v, In (k, v) res -> k <> "OVERALL" ->
          dict_get "ebitda" v
          = Ok (mkCell
                  (sum (col Revenue (loc_eq (entity_col entity_type) k df))
                   - sum (col COGS (loc_eq (entity_col entity_type) k df)) - 0)
                  (guarded_ratio
                     (sum (col Revenue (loc_eq (entity_col entity_type) k df))
                      - sum (col COGS (loc_eq (entity_col entity_type) k df))
                      - 0)
                     (sum (col Revenue
                             (loc_eq (entity_col entity_type) k df)))))).
Proof.
  intros HO Het Hms He.
  assert (forall part m, In m ms -> mem m (keys (part_table df part)) = true)
    as Hk.
  { intros part m Hm. unfold part_table. rewrite keys_metric_table.
    now apply Hms. }
  eexists. split; [now apply compare_performance_value|]. split.
  - eexists. split.
    + rewrite dict_get_map_project, dict_get_set_same. reflexivity.
    + rewrite dict_get_select by (auto using Hk).
      now apply part_table_ebitda_no_OPEX.
  - intros k v Hin Hne. apply in_map_iff in Hin.
    destruct Hin as ([k' v'] & E & Hin). unfold project_entry in E.
    simpl in E. inversion E; subst k v. clear E.
    apply In_dict_set in Hin. destruct Hin as [E|Hin].
    { inversion E. congruence. }
    apply in_map_iff in Hin. destruct Hin as (e & E & Hin).
    destruct (limit_top_n_firstn top_n
                (ranked df (entity_col entity_type) ms)) as [n En].
    rewrite En in Hin. apply firstn_In in Hin. apply ranked_In in Hin.
    destruct Hin as [_ Hs]. rewrite Hs in E. unfold entry_of, summary_of in E.
    simpl in E. inversion E; subst k' v'.
    rewrite select_idempotent by (apply Hk).
    rewrite dict_get_select by (auto using Hk).
    now apply part_table_ebitda_no_OPEX.
Qed.

Lemma compare_performance_OPEX_default_witness :
  exists res,
    compare_performance no_opex_ledger "customer" (Some ["ebitda"]) None
    = Ok res
    /\ exists overall,
         dict_get "OVERALL" res = Ok overall
         /\ dict_get "ebitda" overall
            = Ok (mkCell
                    (sum (col Revenue no_opex_ledger)
                     - sum (col COGS no_opex_ledger) - 0)
                    (guarded_ratio
                       (sum (col Revenue no_opex_ledger)
                        - sum (col COGS no_opex_ledger) - 0)
                       (sum (col Revenue no_opex_ledger)))).
Proof.
  destruct (compare_performance_OPEX_default no_opex_ledger "customer"
              ["ebitda"] None) as (res & E & H & _).
  - reflexivity.
  - reflexivity.
  - intros m Hm. simpl in Hm. destruct Hm as [<-|[]]. reflexivity.
  - simpl. tauto.
  - exists res. split; [exact E | exact H].
Defined.

(* ================================================================== *)
(** * The directory resources *)
(* ================================================================== *)

(** ** The order of [sorted] *)

Lemma ltb_lt (a b : string) :
  String.ltb a b = true <-> OrderedTypeEx.String_as_OT.lt a b.
Proof.
  rewrite <- OrderedTypeEx.String_as_OT.cmp_lt.
  unfold String.ltb, OrderedTypeEx.String_as_OT.cmp.
  destruct (String.compare a b); split; congruence.
Qed.

Lemma ltb_irrefl (a : string) : String.ltb a a = false.
Proof.
  destruct (String.ltb a a) eqn:E; [|reflexivity].
  apply ltb_lt in E.
  apply OrderedTypeEx.String_as_OT.lt_not_eq in E.
  exfalso. apply E. reflexivity.
Qed.

Lemma ltb_trans (a b c : string) :
  String.ltb a b = true -> String.ltb b c = true -> String.ltb a c = true.
Proof.
  rewrite !ltb_lt. apply OrderedTypeEx.String_as_OT.lt_trans.
Qed.

Lemma ltb_asym (a b : string) :
  String.ltb a b = true -> String.ltb b a = false.
Proof.
  intros H. destruct (String.ltb b a) eqn:E; [|reflexivity].
  pose proof (ltb_trans _ _ _ H E) as T. now rewrite ltb_irrefl in T.
Qed.

Lemma ltb_trichotomy (a b : string) :
  String.ltb a b = true \/ a = b \/ String.ltb b a = true.
Proof.
  unfold String.ltb. rewrite (String.compare_antisym b a).
  destruct (String.compare a b) eqn:E; simpl; auto.
  right. left. now apply String.compare_eq_iff.
Qed.

Lemma ltb_negtrans (a b c : string) :
  String.ltb b a = false -> String.ltb c b = false -> String.ltb c a = false.
Proof.
  intros H1 H2. destruct (String.ltb c a) eqn:E; [|reflexivity].
  destruct (ltb_trichotomy a b) as [L | [-> | L]].
  - pose proof (ltb_trans _ _ _ E L). congruence.
  - congruence.
  - congruence.
Qed.

(** [sorted] returns the same names, in ascending order. *)
Lemma sorted_perm (l : list string) : Permutation (sorted l) l.
Proof. apply stable_sort_perm. Qed.

Lemma sorted_In (x : string) (l : list string) : In x (sorted l) <-> In x l.
Proof.
  split; apply Permutation_in; [|symmetry]; apply sorted_perm.
Qed.

Lemma sorted_ascending (l : list string) :
  StronglySorted (fun a b => String.ltb b a = false) (sorted l).
Proof.
  apply stable_sort_sorted.
  - apply ltb_asym.
  - apply ltb_negtrans.
Qed.

(** On distinct names the order is strict. *)
Lemma sorted_strict (l : list string) :
  NoDup l -> StronglySorted (fun a b => String.ltb a b = true) (sorted l).
Proof.
  intros N.
  assert (NoDup (sorted l)) as N'.
  { eapply Permutation_NoDup; [symmetry; apply sorted_perm | exact N]. }
  pose proof (sorted_ascending l) as S.
  induction S as [|x t S IH F]; constructor.
  - apply IH. now inversion N'.
  - inversion N' as [|? ? Hx _]; subst.
    rewrite Forall_forall in *. intros b Hb.
    destruct (ltb_trichotomy x b) as [L | [-> | L]].
    + exact L.
    + contradiction.
    + rewrite (F b Hb) in L. discriminate.
Qed.

(** A strictly ascending list is determined by its elements. *)
Lemma strict_sorted_NoDup (l : list string) :
  StronglySorted (fun a b => String.ltb a b = true) l -> NoDup l.
Proof.
  induction 1 as [|x t S IH F]; constructor; [|exact IH].
  intros Hx. rewrite Forall_forall in F. specialize (F x Hx).
  now rewrite ltb_irrefl in F.
Qed.

Lemma col_In (f : Row -> string) (df : DataFrame) (n : string) :
  In n (col f df) <-> exists r, In r (rows df) /\ f r = n.
Proof.
  unfold col. rewrite in_map_iff. split; intros (r & H1 & H2); eauto.
Qed.

Lemma listing_spec (f : Row -> string) (df : DataFrame) :
  StronglySorted (fun a b => String.ltb a b = true)
                 (sorted (unique (col f df)))
  /\ forall n, In n (sorted (unique (col f df)))
               <-> exists r, In r (rows df) /\ f r = n.
Proof.
  split.
  - apply sorted_strict, unique_NoDup.
  - intros n. now rewrite sorted_In, unique_In, col_In.
Qed.

(** [list_customers] and [list_projects] return the names that occur in
    the ledger, each once, in strictly ascending order. *)
Theorem list_customers_projects_spec (df : DataFrame) :
  (StronglySorted (fun a b => String.ltb a b = true) (list_customers df)
   /\ forall n, In n (list_customers df)
                <-> exists r, In r (rows df) /\ CustomerName r = n)
  /\ (StronglySorted (fun a b => String.ltb a b = true) (list_projects df)
      /\ forall n, In n (list_projects df)
                   <-> exists r, In r (rows df) /\ ProjectName r = n).
Proof.
  split; apply listing_spec.
Qed.

(** ** The two lookups *)

Lemma related_names_spec (f g : Row -> string) (df : DataFrame)
  (k : string) :
  StronglySorted (fun a b => String.ltb a b = true)
                 (sorted (unique (col g (loc_eq f k df))))
  /\ (forall n, In n (sorted (unique (col g (loc_eq f k df))))
                <-> exists r, In r (rows df) /\ f r = k /\ g r = n)
  /\ (In k (unique (col f df)) ->
      sorted (unique (col g (loc_eq f k df))) <> []).
Proof.
  destruct (listing_spec g (loc_eq f k df)) as [S I].
  split; [exact S|]. split.
  - intros n. rewrite I. split.
    + intros (r & Hr & Hn). apply loc_eq_rows in Hr. exists r. tauto.
    + intros (r & Hr & Hk & Hn). exists r. rewrite loc_eq_rows. tauto.
  - intros Hk E. apply loc_eq_nonempty in Hk.
    destruct (rows (loc_eq f k df)) as [|r rs] eqn:R; [congruence|].
    assert (In (g r) (sorted (unique (col g (loc_eq f k df))))) as Hin.
    { rewrite sorted_In, unique_In. unfold col. rewrite R. now left. }
    rewrite E in Hin. contradiction.
Qed.

(** An accepted lookup returns the names related to the matched entity:
    for [list_customer_projects] the projects that occur in a row of the
    matched customer, for [list_project_customers] the customers that occur
    in a row of the matched project; each once, in strictly ascending
    order, and there is at least one. *)
Theorem lookups_spec
  (similarity : string -> string -> Z) (df : DataFrame) (query best : string)
  (score : Z) :
  (score > 80)%Z ->
  (extractOne similarity query (unique (col CustomerName df))
   = Some (best, score) ->
   exists ps,
     list_customer_projects similarity df query = Ok ps
     /\ ps <> []
     /\ StronglySorted (fun a b => String.ltb a b = true) ps
     /\ (forall p, In p ps
           <-> exists r, In r (rows df)
                         /\ CustomerName r = best /\ ProjectName r = p)
     /\ In best (list_customers df))
  /\ (extractOne similarity query (unique (col ProjectName df))
      = Some (best, score) ->
      exists cs,
        list_project_customers similarity df query = Ok cs
        /\ cs <> []
        /\ StronglySorted (fun a b => String.ltb a b = true) cs
        /\ (forall c, In c cs
              <-> exists r, In r (rows df)
                            /\ ProjectName r = best /\ CustomerName r = c)
        /\ In best (list_projects df)).
Proof.
  intros Hs. split; intros E.
  - destruct (extractOne_inv _ _ _ _ _ E) as (Hb & _).
    destruct (related_names_spec CustomerName ProjectName df best)
      as (S & I & NE).
    eexists. split.
    + unfold list_customer_projects. rewrite E.
      destruct (Z.gtb_spec score 80); [reflexivity | lia].
    + repeat split; auto; try apply I.
      unfold list_customers. now rewrite sorted_In.
  - destruct (extractOne_inv _ _ _ _ _ E) as (Hb & _).
    destruct (related_names_spec ProjectName CustomerName df best)
      as (S & I & NE).
    eexists. split.
    + unfold list_project_customers. rewrite E.
      destruct (Z.gtb_spec score 80); [reflexivity | lia].
    + repeat split; auto; try apply I.
      unfold list_projects. now rewrite sorted_In.
Qed.

Lemma lookups_spec_witness :
  exists ps,
    list_customer_projects caseless_similarity acme_ledger "ACME" = Ok ps
    /\ ps <> []
    /\ StronglySorted (fun a b => String.ltb a b = true) ps
    /\ (forall p, In p ps
          <-> exists r, In r (rows acme_ledger)
                        /\ CustomerName r = "Acme" /\ ProjectName r = p)
    /\ In "Acme" (list_customers acme_ledger).
Proof.
  destruct (lookups_spec caseless_similarity acme_ledger "ACME" "Acme" 100%Z)
    as [H _]; [lia|].
  apply H. reflexivity.
Defined.

(** The two lookups agree: when a customer query and a project query are
    both accepted, the matched project is among the customer's projects
    exactly when the matched customer is among the project's customers. *)
Theorem lookups_round_trip
  (similarity : string -> string -> Z) (df : DataFrame)
  (qc qp c p : string) (sc sp : Z) :
  extractOne similarity qc (unique (col CustomerName df)) = Some (c, sc) ->
  (sc > 80)%Z ->
  extractOne similarity qp (unique (col ProjectName df)) = Some (p, sp) ->
  (sp > 80)%Z ->
  exists ps cs,
    list_customer_projects similarity df qc = Ok ps
    /\ list_project_customers similarity df qp = Ok cs
    /\ (In p ps <-> In c cs).
Proof.
  intros Ec Hc Ep Hp.
  destruct (related_names_spec CustomerName ProjectName df c) as (_ & Ic & _).
  destruct (related_names_spec ProjectName CustomerName df p) as (_ & Ip & _).
  eexists _, _. split; [|split].
  - unfold list_customer_projects. rewrite Ec.
    destruct (Z.gtb_spec sc 80); [reflexivity | lia].
  - unfold list_project_customers. rewrite Ep.
    destruct (Z.gtb_spec sp 80); [reflexivity | lia].
  - rewrite Ic, Ip. split; intros (r & H1 & H2 & H3); exists r; tauto.
Qed.

Lemma lookups_round_trip_witness :
  exists ps cs,
    list_customer_projects caseless_similarity acme_ledger "beta" = Ok ps
    /\ list_project_customers caseless_similarity acme_ledger "WEB" = Ok cs
    /\ (In "Web" ps <-> In "Beta" cs).
Proof.
  apply (lookups_round_trip caseless_similarity acme_ledger
           "beta" "WEB" "Beta" "Web" 100%Z 100%Z);
    try reflexivity; lia.
Defined.

(** ** [list_all_entities] *)

Lemma fold_dict_set_from {V : Type} (h : string -> V) (ks : list string) :
  forall acc : dict V,
  NoDup (keys acc ++ ks) ->
  fold_left (fun d k => dict_set k (h k) d) ks acc
  = acc ++ map (fun k => (k, h k)) ks.
Proof.
  induction ks as [|k ks IH]; intros acc N; simpl.
  - now rewrite app_nil_r.
  - pose proof (NoDup_remove_2 _ _ _ N) as Nk.
    rewrite keys_dict_set_absent.
    2:{ intros I. apply Nk. apply in_or_app. now left. }
    rewrite IH.
    + now rewrite <- app_assoc.
    + unfold keys in *. rewrite map_app. simpl. rewrite <- app_assoc.
      exact N.
Qed.

Lemma cross_reference_map (f g : Row -> string) (ks : list string)
  (df : DataFrame) :
  NoDup ks ->
  cross_reference f g ks df
  = map (fun k => (k, sorted (unique (col g (loc_eq f k df))))) ks.
Proof.
  intros N. unfold cross_reference.
  now rewrite (fold_dict_set_from
                 (fun k => sorted (unique (col g (loc_eq f k df))))).
Qed.

Lemma dict_get_tabulate {V : Type} (h : string -> V) (ks : list string)
  (k : string) :
  dict_get k (map (fun k => (k, h k)) ks)
  = if mem k ks then Ok (h k) else Raise (KeyError k).
Proof.
  unfold mem. induction ks as [|k' ks IH]; simpl; [reflexivity|].
  rewrite (String.eqb_sym k k').
  destruct (String.eqb_spec k' k) as [->|N]; simpl; [reflexivity | exact IH].
Qed.

Lemma cross_reference_get (f g : Row -> string) (df : DataFrame)
  (k : string) :
  dict_get k (cross_reference f g (sorted (unique (col f df))) df)
  = if mem k (sorted (unique (col f df)))
    then Ok (sorted (unique (col g (loc_eq f k df))))
    else Raise (KeyError k).
Proof.
  rewrite cross_reference_map.
  - apply (dict_get_tabulate
             (fun k => sorted (unique (col g (loc_eq f k df))))).
  - apply strict_sorted_NoDup, sorted_strict, unique_NoDup.
Qed.

Lemma cross_reference_related (f g : Row -> string) (df : DataFrame)
  (k n : string) :
  (exists ns,
     dict_get k (cross_reference f g (sorted (unique (col f df))) df) = Ok ns
     /\ In n ns)
  <-> exists r, In r (rows df) /\ f r = k /\ g r = n.
Proof.
  rewrite cross_reference_get.
  destruct (related_names_spec f g df k) as (_ & I & _).
  split.
  - intros (ns & E & Hn).
    destruct (mem k (sorted (unique (col f df)))); [|discriminate].
    inversion E; subst ns. now apply I.
  - intros (r & Hr & Hk & Hn).
    assert (mem k (sorted (unique (col f df))) = true) as ->.
    { apply mem_In. rewrite sorted_In, unique_In, col_In. eauto. }
    eexists. split; [reflexivity|]. apply I. eauto.
Qed.

(** The cross reference of [list_all_entities]: both mappings have one
    key per listed name, in the order of the listing; a known customer is
    bound to the non-empty, strictly ascending list of the projects of its
    rows and an unknown name is a missing key; the two mappings mirror each
    other; and an accepted [list_customer_projects] lookup returns the
    entry of the matched customer (likewise for projects). *)
Theorem list_all_entities_spec
  (similarity : string -> string -> Z) (df : DataFrame) :
  keys (customer_projects (list_all_entities df)) = list_customers df
  /\ keys (project_customers (list_all_entities df)) = list_projects df
  /\ (forall c,
        dict_get c (customer_projects (list_all_entities df))
        = if mem c (list_customers df)
          then Ok (sorted (unique (col ProjectName
                                     (loc_eq CustomerName c df))))
          else Raise (KeyError c))
  /\ (forall c ps,
        dict_get c (customer_projects (list_all_entities df)) = Ok ps ->
        ps <> []
        /\ StronglySorted (fun a b => String.ltb a b = true) ps
        /\ forall p, In p ps -> In p (projects (list_all_entities df)))
  /\ (forall c p,
        (exists ps,
           dict_get c (customer_projects (list_all_entities df)) = Ok ps
           /\ In p ps)
        <-> (exists cs,
               dict_get p (project_customers (list_all_entities df)) = Ok cs
               /\ In c cs))
  /\ (forall query best score,
        (score > 80)%Z ->
        (extractOne similarity query (unique (col CustomerName df))
         = Some (best, score) ->
         list_customer_projects similarity df query
         = dict_get best (customer_projects (list_all_entities df)))
        /\ (extractOne similarity query (unique (col ProjectName df))
            = Some (best, score) ->
            list_project_customers similarity df query
            = dict_get best (project_customers (list_all_entities df)))).
Proof.
  assert (forall f : Row -> string, NoDup (sorted (unique (col f df)))) as ND.
  { intros f. apply strict_sorted_NoDup, sorted_strict, unique_NoDup. }
  cbn [list_all_entities customer_projects project_customers projects].
  split; [|split; [|split; [|split; [|split]]]].
  - rewrite cross_reference_map by apply ND.
    unfold keys. rewrite map_map. apply map_id.
  - rewrite cross_reference_map by apply ND.
    unfold keys. rewrite map_map. apply map_id.
  - intros c. apply cross_reference_get.
  - intros c ps E. rewrite cross_reference_get in E.
    destruct (mem c (sorted (unique (col CustomerName df)))) eqn:M;
      [|discriminate].
    inversion E; subst ps.
    destruct (related_names_spec CustomerName ProjectName df c)
      as (S & I & NE).
    split; [|split].
    + apply NE. apply mem_In in M. now rewrite sorted_In in M.
    + exact S.
    + intros p Hp. apply I in Hp. destruct Hp as (r & Hr & _ & Hn).
      rewrite sorted_In, unique_In, col_In. eauto.
  - intros c p. rewrite !cross_reference_related.
    split; intros (r & H1 & H2 & H3); exists r; tauto.
  - intros query best score Hs. split; intros E.
    + destruct (extractOne_inv _ _ _ _ _ E) as (Hb & _).
      unfold list_customer_projects. rewrite E, cross_reference_get.
      destruct (Z.gtb_spec score 80); [|lia].
      assert (mem best (sorted (unique (col CustomerName df))) = true) as ->.
      { apply mem_In. now rewrite sorted_In. }
      reflexivity.
    + destruct (extractOne_inv _ _ _ _ _ E) as (Hb & _).
      unfold list_project_customers. rewrite E, cross_reference_get.
      destruct (Z.gtb_spec score 80); [|lia].
      assert (mem best (sorted (unique (col ProjectName df))) = true) as ->.
      { apply mem_In. now rewrite sorted_In. }
      reflexivity.
Qed.

(* ================================================================== *)
(** * Further properties of [get_data] *)
(* ================================================================== *)

(** With no filter in force (both arguments absent or empty), [get_data]
    returns a result exactly when the lowercased metric is one of the names
    [list_available_metrics] lists and, for ebitda, the ledger has its OPEX
    column. *)
Theorem get_data_unfiltered_outcome
  (similarity : string -> string -> Z) (df : DataFrame) (metric : string)
  (c p : option string) :
  truthy c = false -> truthy p = false ->
  is_ok (get_data similarity df metric c p)
  = mem (lower metric) list_available_metrics
    && (has_OPEX df || negb (String.eqb (lower metric) "ebitda")).
Proof.
  intros Tc Tp.
  rewrite (get_data_steps similarity df df df metric c p c p)
    by (now apply narrow_falsy).
  rewrite Tc, Tp. cbn [negb andb].
  destruct (mem (lower metric) list_available_metrics) eqn:M.
  - apply mem_In in M. simpl in M.
    destruct M as [<-|[<-|[<-|[]]]];
      unfold overall_metric, col_OPEX;
      cbn [String.eqb Ascii.eqb Bool.eqb];
      destruct (has_OPEX df); reflexivity.
  - now rewrite overall_metric_unknown.
Qed.

Lemma get_data_unfiltered_outcome_witness :
  is_ok (get_data caseless_similarity no_opex_ledger "EBITDA" (Some "") None)
  = false
  /\ is_ok (get_data caseless_similarity no_opex_ledger "Gross_Margin"
              (Some "") None)
     = true.
Proof.
  split.
  - rewrite (get_data_unfiltered_outcome caseless_similarity no_opex_ledger
               "EBITDA" (Some "") None eq_refl eq_refl).
    reflexivity.
  - rewrite (get_data_unfiltered_outcome caseless_similarity no_opex_ledger
               "Gross_Margin" (Some "") None eq_refl eq_refl).
    reflexivity.
Defined.

Lemma narrow_rows_nonempty (similarity : string -> string -> Z)
  (kind : string) (f : Row -> string) (arg arg' : option string)
  (df df' : DataFrame) :
  truthy arg = true ->
  narrow similarity kind f arg df = Ok (arg', df') ->
  rows df' <> [].
Proof.
  intros T H.
  destruct (narrow_ok_inv _ _ _ _ _ _ _ H)
    as [(T' & _) | (q & best & score & _ & _ & E & _ & _ & ->)];
    [congruence|].
  apply extractOne_inv in E. destruct E as (Hin & _).
  now apply loc_eq_nonempty.
Qed.

(** The shape of a result of [get_data], for a known metric (with the OPEX
    column present for ebitda) and filters that go through on a loaded
    frame: values and percentages have the same length; without a filter
    there is exactly one value, over the whole ledger; with a filter there
    is one value per row kept, the metric of that row, and at least one
    row is kept; and for revenue every percentage is 1. *)
Theorem get_data_shape
  (similarity : string -> string -> Z) (df df1 df2 : DataFrame)
  (metric : string) (m : MetricKind) (c p c' p' : option string) :
  well_formed df = true ->
  lower metric = metric_name m ->
  (m = MEbitda -> has_OPEX df = true) ->
  narrow similarity "customer" CustomerName c df = Ok (c', df1) ->
  narrow similarity "project" ProjectName p df1 = Ok (p', df2) ->
  exists vals pcts,
    get_data similarity df metric c p = Ok (vals, pcts)
    /\ List.length vals = List.length pcts
    /\ (truthy c || truthy p = false ->
        df2 = df
        /\ vals = [metric_expr m (sum (col Revenue df)) (sum (col COGS df))
                                 (sum (col OPEX df))])
    /\ (truthy c || truthy p = true ->
        rows df2 <> [] /\ vals = map (row_metric m) (rows df2))
    /\ (m = MRevenue -> Forall (fun x => x = Finite 1) pcts).
Proof.
  intros W M HO H1 H2.
  destruct (narrow_preserves similarity _ _ _ _ _ _ (or_introl eq_refl) W H1)
    as (T1 & W1 & O1).
  destruct (narrow_preserves similarity _ _ _ _ _ _ (or_intror eq_refl) W1 H2)
    as (T2 & W2 & O2).
  rewrite (get_data_steps _ _ _ _ _ _ _ _ _ H1 H2), M, T1, T2.
  destruct (truthy c || truthy p) eqn:T.
  - assert (negb (truthy c) && negb (truthy p) = false) as ->.
    { destruct (truthy c), (truthy p); simpl in *; congruence. }
    destruct (per_row_metric_value df2 m) as (pcts & E & Hp).
    { intros Em. rewrite O2, O1. now apply HO. }
    exists (map (row_metric m) (rows df2)), pcts.
    split; [exact E|]. split; [|split; [|split]].
    + destruct m.
      * rewrite per_row_revenue in E. inversion E.
        now rewrite length_map, repeat_length.
      * rewrite Hp by discriminate. now rewrite !length_map.
      * rewrite Hp by discriminate. now rewrite !length_map.
    + discriminate.
    + intros _. split; [|reflexivity].
      destruct (truthy p) eqn:Tp.
      * exact (narrow_rows_nonempty similarity _ _ _ _ _ _ Tp H2).
      * rewrite narrow_falsy in H2 by exact Tp. inversion H2; subst.
        rewrite orb_false_r in T.
        exact (narrow_rows_nonempty similarity _ _ _ _ _ _ T H1).
    + intros ->. rewrite per_row_revenue in E. inversion E.
      apply Forall_forall. intros x Hx. now apply repeat_spec in Hx.
  - apply orb_false_iff in T. destruct T as [Tc Tp].
    rewrite Tc, Tp. cbn [negb andb].
    rewrite narrow_falsy in H1 by exact Tc. inversion H1; subst c' df1.
    rewrite narrow_falsy in H2 by exact Tp. inversion H2; subst p' df2.
    destruct (overall_metric_value df m HO) as (pct & E & Hp).
    eexists _, _. split; [exact E|].
    split; [reflexivity|]. split; [|split].
    + intros _. split; reflexivity.
    + discriminate.
    + intros ->. constructor; [|constructor].
      clear Hp. unfold overall_metric in E.
      cbn [metric_name String.eqb Ascii.eqb Bool.eqb] in E.
      now inversion E.
Qed.

Lemma get_data_shape_witness :
  exists vals pcts,
    get_data caseless_similarity acme_ledger "Revenue" (Some "acme") None
    = Ok (vals, pcts)
    /\ List.length vals = List.length pcts
    /\ Forall (fun x => x = Finite 1) pcts.
Proof.
  destruct (get_data_shape caseless_similarity acme_ledger
              (loc_eq CustomerName "Acme" acme_ledger)
              (loc_eq CustomerName "Acme" acme_ledger)
              "Revenue" MRevenue (Some "acme") None (Some "Acme") None
              eq_refl eq_refl
              ltac:(intros E; discriminate E)
              eq_refl eq_refl)
    as (vals & pcts & E & L & _ & _ & F).
  exists vals, pcts. auto.
Defined.

(* ================================================================== *)
(** * Further properties of [compare_performance] *)
(* ================================================================== *)

Lemma compare_performance_key_error (df : DataFrame) (entity_type : string)
  (l1 l2 : list string) (bad : string) (top_n : option Z) :
  mem (lower entity_type) ["customer"; "project"] = true ->
  (forall m, In m (l1 ++ bad :: l2) -> mem (lower m) valid_metrics = true) ->
  (forall m, In m l1 -> mem m valid_metrics = true) ->
  mem bad valid_metrics = false ->
  compare_performance df entity_type (Some (l1 ++ bad :: l2)) top_n
  = Raise (KeyError bad).
Proof.
  intros Het Hval Hl1 Hbad.
  unfold compare_performance. rewrite Het. cbn [negb].
  rewrite validate_metrics_ok by exact Hval. cbn [bind].
  fold (entity_col entity_type).
  destruct (groupby (entity_col entity_type) df) as [|g groups].
  - cbn [summarise bind]. unfold sort_by_revenue.
    cbn [stable_sort fold_right]. rewrite limit_top_n_nil.
    cbn [fill_results fold_left dict_set keys map fst project_results].
    cbn [dict_get String.eqb Ascii.eqb Bool.eqb bind].
    rewrite dict_comp_first_missing; [reflexivity | | ].
    + intros k Hk. rewrite keys_metric_table. now apply Hl1.
    + now rewrite keys_metric_table.
  - now rewrite summarise_first_missing.
Qed.

Lemma forallb_false_first {A : Type} (p : A -> bool) (l : list A) :
  forallb p l = false ->
  exists l1 x l2,
    l = l1 ++ x :: l2 /\ p x = false /\ forall y, In y l1 -> p y = true.
Proof.
  induction l as [|a l IH]; simpl; [discriminate|].
  destruct (p a) eqn:E; simpl.
  - intros H. destruct (IH H) as (l1 & x & l2 & -> & Hx & Hl1).
    exists (a :: l1), x, l2. split; [reflexivity|]. split; [exact Hx|].
    intros y [<-|Hy]; auto.
  - intros _. exists [], a, l. split; [reflexivity|]. split; [exact E|].
    intros y [].
Qed.

Lemma find_app_first {A : Type} (p : A -> bool) (l1 l2 : list A) (x : A) :
  p x = true -> (forall y, In y l1 -> p y = false) ->
  find p (l1 ++ x :: l2) = Some x.
Proof.
  intros Hx H. induction l1 as [|a l1 IH]; cbn [app find].
  - now rewrite Hx.
  - rewrite (H a) by now left. apply IH. intros y Hy. apply H. now right.
Qed.

(** Whether [compare_performance] returns a result is decided by its
    arguments alone, never by the ledger: it does exactly when the entity
    type is customer or project up to letter case and every requested
    metric is literally one of the three lowercase names.  An invalid
    entity type raises the entity-type error whatever the other arguments,
    and two entity types with the same lowercase form give the same
    outcome. *)
Theorem compare_performance_outcome
  (df : DataFrame) (entity_type : string) (ms : list string)
  (top_n : option Z) :
  is_ok (compare_performance df entity_type (Some ms) top_n)
  = mem (lower entity_type) ["customer"; "project"]
    && forallb (fun m => mem m valid_metrics) ms
  /\ is_ok (compare_performance df entity_type None top_n)
     = mem (lower entity_type) ["customer"; "project"]
  /\ (forall metrics,
        mem (lower entity_type) ["customer"; "project"] = false ->
        compare_performance df entity_type metrics top_n
        = Raise (ValueError
                   "entity_type must be either 'customer' or 'project'"))
  /\ (forall entity_type' metrics,
        lower entity_type' = lower entity_type ->
        compare_performance df entity_type' metrics top_n
        = compare_performance df entity_type metrics top_n).
Proof.
  assert (forall l,
            is_ok (compare_performance df entity_type (Some l) top_n)
            = mem (lower entity_type) ["customer"; "project"]
              && forallb (fun m => mem m valid_metrics) l) as Main.
  { intros l.
    destruct (mem (lower entity_type) ["customer"; "project"]) eqn:Het.
    2:{ unfold compare_performance. now rewrite Het. }
    cbn [andb].
    destruct (forallb (fun m => mem m valid_metrics) l) eqn:F.
    - rewrite forallb_forall in F.
      now rewrite compare_performance_value.
    - destruct (forallb_false_first _ _ F) as (l1 & bad & l2 & -> & Hb & Hl1).
      destruct (forallb (fun m => mem (lower m) valid_metrics)
                        (l1 ++ bad :: l2)) eqn:G.
      + rewrite forallb_forall in G.
        now rewrite (compare_performance_key_error df entity_type l1 l2 bad).
      + destruct (forallb_false_first _ _ G)
          as (k1 & bad' & k2 & E & Hb' & Hk1).
        unfold compare_performance. rewrite Het. cbn [negb]. rewrite E.
        rewrite (validate_metrics_first_bad _ bad'); [reflexivity|].
        apply find_app_first.
        * now rewrite Hb'.
        * intros y Hy. now rewrite (Hk1 y Hy). }
  split; [apply Main|]. split; [|split].
  - change (compare_performance df entity_type None top_n)
      with (compare_performance df entity_type
              (Some ["revenue"; "gross_margin"; "ebitda"]) top_n).
    rewrite Main. cbn [forallb]. now rewrite andb_true_r.
  - intros metrics Het. unfold compare_performance. now rewrite Het.
  - intros entity_type' metrics E. unfold compare_performance.
    now rewrite E.
Qed.

Lemma length_dict_set {V : Type} (k : string) (v : V) (d : dict V) :
  (List.length (dict_set k v d) <= S (List.length d))%nat.
Proof.
  induction d as [|[k' v'] d IH]; simpl; [lia|].
  destruct (String.eqb k' k); simpl; lia.
Qed.

Lemma keys_map_project (ms : list string) (d : dict (dict cell)) :
  keys (map (project_entry ms) d) = keys d.
Proof. unfold keys. rewrite map_map. reflexivity. Qed.

(** For a valid entity type and lowercase metric names, whatever the
    ledger (also when an entity is itself called OVERALL, and on an empty
    ledger): the result has distinct keys, the key OVERALL is bound to the
    requested metrics of the whole ledger, every other key is an entity
    name of the chosen column, and a positive [top_n] bounds the size of
    the result by [top_n + 1]. *)
Theorem compare_performance_overall_always
  (df : DataFrame) (entity_type : string) (ms : list string)
  (top_n : option Z) :
  mem (lower entity_type) ["customer"; "project"] = true ->
  (forall m, In m ms -> mem m valid_metrics = true) ->
  exists res,
    compare_performance df entity_type (Some ms) top_n = Ok res
    /\ NoDup (keys res)
    /\ dict_get "OVERALL" res = Ok (select ms (part_table df df) [])
    /\ (forall m, In m ms ->
          dict_get m (select ms (part_table df df) [])
          = dict_get m (part_table df df))
    /\ (forall k, In k (keys res) ->
          k = "OVERALL" \/ In k (col (entity_col entity_type) df))
    /\ (forall n, top_n = Some n -> (n > 0)%Z ->
          (List.length res <= Z.to_nat n + 1)%nat).
Proof.
  intros Het Hms.
  eexists. split; [now apply compare_performance_value|].
  destruct (limit_top_n_firstn top_n (ranked df (entity_col entity_type) ms))
    as [k Ek].
  split; [|split; [|split; [|split]]].
  - rewrite keys_map_project. apply NoDup_keys_dict_set.
    unfold keys. rewrite map_map. simpl. rewrite Ek.
    apply firstn_NoDup_map, ranked_NoDup.
  - rewrite dict_get_map_project, dict_get_set_same. reflexivity.
  - intros m Hm. apply dict_get_select; [|now left].
    intros m' Hm'. unfold part_table. rewrite keys_metric_table.
    now apply Hms.
  - intros key Hk. rewrite keys_map_project in Hk.
    unfold keys in Hk. apply in_map_iff in Hk.
    destruct Hk as (kv & <- & Hkv). apply In_dict_set in Hkv.
    destruct Hkv as [->|Hkv]; [now left|].
    right. apply in_map_iff in Hkv. destruct Hkv as (e & <- & He).
    rewrite Ek in He. apply firstn_In in He. apply ranked_In in He.
    destruct He as [He _]. simpl. now rewrite unique_In in He.
  - intros n -> Hn. rewrite length_map.
    eapply Nat.le_trans; [apply length_dict_set|].
    rewrite length_map. simpl.
    destruct (Z.gtb_spec n 0); [|lia].
    unfold slice_to. pose proof (firstn_le_length (Z.to_nat n)
      (ranked df (entity_col entity_type) ms)). lia.
Qed.

Lemma compare_performance_overall_always_witness :
  exists res,
    compare_performance overall_named_ledger "customer" (Some ["revenue"])
      (Some 1%Z) = Ok res
    /\ NoDup (keys res)
    /\ dict_get "OVERALL" res
       = Ok (select ["revenue"]
               (part_table overall_named_ledger overall_named_ledger) [])
    /\ (List.length res <= 2)%nat.
Proof.
  destruct (compare_performance_overall_always overall_named_ledger
              "customer" ["revenue"] (Some 1%Z))
    as (res & E & N & O & _ & _ & B).
  - reflexivity.
  - intros m Hm. simpl in Hm. destruct Hm as [<-|[]]. reflexivity.
  - exists res. repeat split; auto.
    apply (B 1%Z); [reflexivity | lia].
Defined.

Lemma summarise_length (df : DataFrame) (ms : list string)
  (groups : list (string * DataFrame)) : forall acc es,
  summarise df ms groups acc = Ok es ->
  List.length es = (List.length acc + List.length groups)%nat.
Proof.
  induction groups as [|[k g] groups IH]; intros acc es; simpl.
  - intros H. inversion H. lia.
  - match goal with |- context [dict_comp ?a ?b ?c] =>
      destruct (dict_comp a b c) as [sel|e] end; cbn [bind];
      [|discriminate].
    intros H. apply IH in H. rewrite H, length_app. simpl. lia.
Qed.

Lemma limit_top_n_all (n : Z) (es : list summary) :
  (n <= 0)%Z \/ (Z.of_nat (List.length es) <= n)%Z ->
  limit_top_n (Some n) es = es.
Proof.
  intros H. simpl. destruct (Z.gtb_spec n 0); [|reflexivity].
  unfold slice_to. apply firstn_all2. lia.
Qed.

(** The edges of [top_n]: zero, a negative number, and any number that is
    at least the number of distinct entities of the chosen column all give
    the result (or the error) of the call without [top_n]. *)
Theorem compare_performance_top_n_edges
  (df : DataFrame) (entity_type : string) (metrics : option (list string))
  (n : Z) :
  (n <= 0)%Z
  \/ (Z.of_nat (List.length (unique (col (entity_col entity_type) df)))
      <= n)%Z ->
  compare_performance df entity_type metrics (Some n)
  = compare_performance df entity_type metrics None.
Proof.
  intros H. unfold compare_performance.
  destruct (negb (mem (lower entity_type) ["customer"; "project"]));
    [reflexivity|].
  match goal with |- context [validate_metrics ?x] =>
    set (ms := x); destruct (validate_metrics ms) as [[]|e] end;
    cbn [bind]; [|reflexivity].
  fold (entity_col entity_type).
  destruct (summarise df ms (groupby (entity_col entity_type) df) [])
    as [es|e] eqn:E; cbn [bind]; [|reflexivity].
  rewrite limit_top_n_all; [reflexivity|].
  destruct H as [H|H]; [now left|]. right.
  rewrite (Permutation_length (sort_by_revenue_perm es)).
  rewrite (summarise_length _ _ _ _ _ E). simpl.
  unfold groupby. rewrite length_map.
  now rewrite (Permutation_length (sorted_perm _)).
Qed.

Lemma compare_performance_top_n_edges_witness :
  compare_performance abc_ledger "customer" None (Some 3%Z)
  = compare_performance abc_ledger "customer" None None
  /\ compare_performance abc_ledger "customer" None (Some (-1)%Z)
     = compare_performance abc_ledger "customer" None None.
Proof.
  split.
  - apply (compare_performance_top_n_edges abc_ledger "customer" None 3%Z).
    right. simpl. lia.
  - apply (compare_performance_top_n_edges abc_ledger "customer" None (-1)%Z).
    left. lia.
Defined.

Lemma select_single (m : MetricKind) (r c o : Q) :
  select [metric_name m] (metric_table r c o) []
  = [(metric_name m, cell_of m r c o)].
Proof. destruct m; reflexivity. Qed.

Lemma opex_or_zero_present (df part : DataFrame) :
  has_OPEX df = true -> opex_or_zero df part = sum (col OPEX part).
Proof. intros H. unfold opex_or_zero, in_columns_OPEX. now rewrite H. Qed.

Lemma single_metric_valid (m : MetricKind) (x : string) :
  In x [metric_name m] -> mem x valid_metrics = true.
Proof. intros [<-|[]]. now destruct m. Qed.

(** The two tools agree on the whole ledger: for each metric, the value and
    the percentage that the unfiltered [get_data] returns are those of the
    entry OVERALL of [compare_performance] (the OPEX column being present
    for ebitda). *)
Theorem overall_entry_matches_get_data
  (similarity : string -> string -> Z) (df : DataFrame)
  (entity_type : string) (m : MetricKind) (top_n : option Z) :
  mem (lower entity_type) ["customer"; "project"] = true ->
  (m = MEbitda -> has_OPEX df = true) ->
  exists v p res,
    get_data similarity df (metric_name m) None None = Ok ([v], [Finite p])
    /\ compare_performance df entity_type (Some [metric_name m]) top_n
       = Ok res
    /\ dict_get "OVERALL" res = Ok [(metric_name m, mkCell v p)].
Proof.
  intros Het HO.
  exists (value (cell_of m (sum (col Revenue df)) (sum (col COGS df))
                         (sum (col OPEX df)))),
         (percentage (cell_of m (sum (col Revenue df)) (sum (col COGS df))
                              (sum (col OPEX df)))).
  eexists. split; [|split].
  - rewrite (get_data_steps similarity df df df _ None None None None
               eq_refl eq_refl).
    cbn [truthy negb andb]. rewrite lower_metric_name.
    destruct m; unfold overall_metric, col_OPEX;
      cbn [metric_name String.eqb Ascii.eqb Bool.eqb];
      [reflexivity | reflexivity |].
    rewrite (HO eq_refl). reflexivity.
  - apply compare_performance_value; [exact Het|].
    apply single_metric_valid.
  - rewrite dict_get_map_project, dict_get_set_same. cbn [bind].
    unfold part_table. rewrite select_single.
    destruct m; try reflexivity.
    now rewrite opex_or_zero_present by auto.
Qed.

Lemma overall_entry_matches_get_data_witness :
  exists v p res,
    get_data caseless_similarity acme_ledger "ebitda" None None
    = Ok ([v], [Finite p])
    /\ compare_performance acme_ledger "project" (Some ["ebitda"]) (Some 1%Z)
       = Ok res
    /\ dict_get "OVERALL" res = Ok [("ebitda", mkCell v p)].
Proof.
  apply (overall_entry_matches_get_data caseless_similarity acme_ledger
           "project" MEbitda (Some 1%Z)); reflexivity.
Defined.

(* ================================================================== *)
(** * The empty ledger *)
(* ================================================================== *)

(** On a ledger without rows: a supplied (non-empty) customer or project
    makes [get_data] fail with the [TypeError] of subscripting [None]
    rather than with a no-close-match error, and so do both lookups; the
    unfiltered [get_data] returns a zero total, with percentage 1 for
    revenue and the guarded 0 for gross_margin; [compare_performance]
    returns the entry OVERALL alone, all values zero; and the listings are
    empty. *)
Theorem empty_ledger_behaviour
  (similarity : string -> string -> Z) (h : bool) (a : ascii)
  (q metric entity_type : string) (c p : option string) (top_n : option Z) :
  get_data similarity (mkDF h []) metric (Some (String a q)) p
  = Raise (TypeError "'NoneType' object is not subscriptable")
  /\ (truthy c = false ->
      get_data similarity (mkDF h []) metric c (Some (String a q))
      = Raise (TypeError "'NoneType' object is not subscriptable"))
  /\ list_customer_projects similarity (mkDF h []) q
     = Raise (TypeError "'NoneType' object is not subscriptable")
  /\ list_project_customers similarity (mkDF h []) q
     = Raise (TypeError "'NoneType' object is not subscriptable")
  /\ get_data similarity (mkDF h []) "revenue" None None
     = Ok ([0], [Finite 1])%Q
  /\ get_data similarity (mkDF h []) "gross_margin" None None
     = Ok ([0 - 0], [Finite 0])%Q
  /\ (mem (lower entity_type) ["customer"; "project"] = true ->
      compare_performance (mkDF h []) entity_type None top_n
      = Ok [("OVERALL",
             [("revenue", mkCell 0 1);
              ("gross_margin", mkCell (0 - 0) 0);
              ("ebitda", mkCell (0 - 0 - 0) 0)])])
  /\ list_customers (mkDF h []) = []
  /\ list_projects (mkDF h []) = []
  /\ customer_projects (list_all_entities (mkDF h [])) = []
  /\ project_customers (list_all_entities (mkDF h [])) = [].
Proof.
  split; [reflexivity|]. split.
  { intros Tc. apply (get_data_project_raise similarity _ (mkDF h []) _ _ _ c).
    - now apply narrow_falsy.
    - reflexivity. }
  do 4 (split; [reflexivity|]). split; [|repeat split; reflexivity].
  intros Het. unfold compare_performance. rewrite Het.
  cbn [negb validate_metrics bind].
  change (validate_metrics ["revenue"; "gross_margin"; "ebitda"])
    with (@Ok unit tt).
  cbn [bind]. unfold groupby, col. cbn [rows map unique].
  unfold sorted. cbn [stable_sort fold_right map summarise bind].
  unfold sort_by_revenue. cbn [stable_sort fold_right].
  rewrite limit_top_n_nil.
  destruct h; reflexivity.
Qed.

(* ================================================================== *)
(** * Typed columns: the arithmetic of [get_data] *)
(* ================================================================== *)

(** ** Series arithmetic *)

Lemma series_sub_map {A : Type} (f g : A -> Np.num) (l : list A) :
  Np.series_sub (map f l) (map g l) = map (fun r => Np.sub (f r) (g r)) l.
Proof.
  unfold Np.series_sub. induction l as [|x l IH]; simpl; [reflexivity|].
  now rewrite IH.
Qed.

Lemma series_div_map {A : Type} (f g : A -> Np.num) (l : list A) :
  Np.series_div (map f l) (map g l) = map (fun r => Np.truediv (f r) (g r)) l.
Proof.
  unfold Np.series_div. induction l as [|x l IH]; simpl; [reflexivity|].
  now rewrite IH.
Qed.

(** ** Division by a zero of either sign

    The quotient of any float by a zero is an infinity or NaN. *)

Lemma SFeqb_zero (x : SpecFloat.spec_float) (s : bool) :
  SpecFloat.SFeqb x (SpecFloat.S754_zero s) = true ->
  exists s', x = SpecFloat.S754_zero s'.
Proof.
  destruct x as [s'| s' | | s' m e]; simpl; try discriminate.
  - eauto.
  - destruct s'; discriminate.
  - destruct s'; discriminate.
Qed.

Lemma div_by_zero_not_finite (x y : PrimFloat.float) :
  PrimFloat.eqb y PrimFloat.zero = true ->
  PrimFloat.is_finite (PrimFloat.div x y) = false.
Proof.
  intros H. rewrite FloatAxioms.eqb_spec in H.
  change (FloatOps.Prim2SF PrimFloat.zero) with (SpecFloat.S754_zero false) in H.
  apply SFeqb_zero in H. destruct H as [s Hy].
  assert (FloatOps.Prim2SF (PrimFloat.div x y) = SpecFloat.S754_nan
          \/ exists s', FloatOps.Prim2SF (PrimFloat.div x y)
                        = SpecFloat.S754_infinity s') as R.
  { rewrite FloatAxioms.div_spec, Hy. unfold FloatAxioms.SF64div.
    destruct (FloatOps.Prim2SF x) as [sx|sx| |sx m e]; simpl; eauto. }
  destruct R as [R | [s' R]].
  - assert (PrimFloat.div x y = PrimFloat.nan) as ->
      by (apply FloatAxioms.Prim2SF_inj; now rewrite R).
    reflexivity.
  - destruct s'.
    + assert (PrimFloat.div x y = PrimFloat.neg_infinity) as ->
        by (apply FloatAxioms.Prim2SF_inj; now rewrite R).
      reflexivity.
    + assert (PrimFloat.div x y = PrimFloat.infinity) as ->
        by (apply FloatAxioms.Prim2SF_inj; now rewrite R).
      reflexivity.
Qed.

(** ** Narrowing a typed frame *)

Lemma typed_loc_eq_rows (f : Np.Row -> string) (n : string)
  (df : Np.DataFrame) (r : Np.Row) :
  In r (Np.rows (Np.loc_eq f n df)) <-> In r (Np.rows df) /\ f r = n.
Proof.
  unfold Np.loc_eq. simpl. rewrite filter_In, String.eqb_eq. tauto.
Qed.

Lemma typed_well_formed_loc_eq (f : Np.Row -> string) (n : string)
  (df : Np.DataFrame) :
  Np.well_formed df = true -> Np.well_formed (Np.loc_eq f n df) = true.
Proof.
  unfold Np.well_formed. rewrite !forallb_forall. intros H r Hr.
  apply typed_loc_eq_rows in Hr. now apply H.
Qed.

Lemma typed_well_formed_names (f : Np.Row -> string) (df : Np.DataFrame)
  (n : string) :
  Np.well_formed df = true ->
  f = Np.CustomerName \/ f = Np.ProjectName ->
  In n (unique (Np.col f df)) -> truthy (Some n) = true.
Proof.
  unfold Np.well_formed. rewrite forallb_forall. intros H Hf Hn.
  rewrite unique_In in Hn. unfold Np.col in Hn. apply in_map_iff in Hn.
  destruct Hn as (r & <- & Hr). specialize (H r Hr).
  apply andb_true_iff in H. rewrite truthy_nonblank.
  destruct Hf as [-> | ->]; tauto.
Qed.

Lemma typed_narrow_falsy (similarity : string -> string -> Z)
  (kind : string) (f : Np.Row -> string) (arg : option string)
  (df : Np.DataFrame) :
  truthy arg = false -> Np.narrow similarity kind f arg df = Ok (arg, df).
Proof. destruct arg as [[|a q]|]; simpl; intros H; congruence. Qed.

(** What a successful narrowing step returns. *)
Lemma typed_narrow_ok_inv (similarity : string -> string -> Z)
  (kind : string) (f : Np.Row -> string) (arg arg' : option string)
  (df df' : Np.DataFrame) :
  Np.narrow similarity kind f arg df = Ok (arg', df') ->
  (truthy arg = false /\ arg' = arg /\ df' = df)
  \/ exists q best score,
       arg = Some q /\ truthy arg = true
       /\ extractOne similarity q (unique (Np.col f df)) = Some (best, score)
       /\ (score > 80)%Z /\ arg' = Some best /\ df' = Np.loc_eq f best df.
Proof.
  intros H. destruct (truthy arg) eqn:T.
  - right. destruct arg as [[|a q]|]; try discriminate.
    cbn [Np.narrow] in H.
    destruct (extractOne similarity (String a q)
                (unique (Np.col f df))) as [[best score]|] eqn:E;
      [|discriminate].
    destruct (Z.gtb_spec score 80); [|discriminate].
    inversion H; subst. exists (String a q), best, score.
    repeat split; auto. lia.
  - left. rewrite typed_narrow_falsy in H by exact T. inversion H; auto.
Qed.

(** A narrowing step keeps the shape of the frame, and on a well-formed
    frame it keeps the truthiness of its argument. *)
Lemma typed_narrow_preserves (similarity : string -> string -> Z)
  (kind : string) (f : Np.Row -> string) (arg arg' : option string)
  (df df' : Np.DataFrame) :
  f = Np.CustomerName \/ f = Np.ProjectName ->
  Np.well_formed df = true ->
  Np.narrow similarity kind f arg df = Ok (arg', df') ->
  truthy arg' = truthy arg
  /\ Np.well_formed df' = true
  /\ Np.has_OPEX df' = Np.has_OPEX df.
Proof.
  intros Hf W H.
  destruct (typed_narrow_ok_inv _ _ _ _ _ _ _ H)
    as [(T & -> & ->) | (q & best & score & -> & T & E & Hs & -> & ->)].
  - auto.
  - apply extractOne_inv in E. destruct E as (Hin & _).
    rewrite T. split; [|split].
    + eapply typed_well_formed_names; eauto.
    + now apply typed_well_formed_loc_eq.
    + reflexivity.
Qed.

(** ** The two branches of [get_data] *)

Lemma typed_get_data_steps (similarity : string -> string -> Z)
  (fsum : list PrimFloat.float -> PrimFloat.float)
  (df df1 df2 : Np.DataFrame) (metric : string)
  (c p c' p' : option string) :
  Np.narrow similarity "customer" Np.CustomerName c df = Ok (c', df1) ->
  Np.narrow similarity "project" Np.ProjectName p df1 = Ok (p', df2) ->
  Np.get_data similarity fsum df metric c p =
    if negb (truthy c') && negb (truthy p')
    then Np.overall_metric fsum (lower metric) df2
    else Np.per_row_metric (lower metric) df2.
Proof.
  intros H1 H2. unfold Np.get_data. rewrite H1. cbn [bind].
  rewrite H2. reflexivity.
Qed.

(** The row-wise tail, written over the rows: the percentage of a row is
    the float64 quotient of its metric by its Revenue. *)
Lemma typed_per_row_value (df : Np.DataFrame) (m : MetricKind) :
  (m = MEbitda -> Np.has_OPEX df = true) ->
  exists pcts,
    Np.per_row_metric (metric_name m) df
    = Ok (map (Np.row_metric m) (Np.rows df), pcts)
    /\ (m <> MRevenue ->
        pcts = map (fun r =>
                      Np.Float64
                        (PrimFloat.div (Np.to_float (Np.row_metric m r))
                                       (Np.to_float (Np.Revenue r))))
                   (Np.rows df)).
Proof.
  intros H. destruct m; unfold Np.per_row_metric, Np.col_OPEX;
    cbn [metric_name String.eqb Ascii.eqb Bool.eqb].
  - eexists. split; [reflexivity | congruence].
  - unfold Np.col. rewrite series_sub_map.
    rewrite (series_div_map
               (fun r => Np.sub (Np.Revenue r) (Np.COGS r)) Np.Revenue).
    eexists. split; reflexivity.
  - rewrite (H eq_refl). cbn [bind]. unfold Np.col.
    rewrite series_sub_map.
    rewrite (series_sub_map
               (fun r => Np.sub (Np.Revenue r) (Np.COGS r)) Np.OPEX).
    rewrite (series_div_map
               (fun r => Np.sub (Np.sub (Np.Revenue r) (Np.COGS r))
                                (Np.OPEX r)) Np.Revenue).
    eexists. split; reflexivity.
Qed.

(** The aggregate branch, written over the column totals. *)
Lemma typed_overall_value
  (fsum : list PrimFloat.float -> PrimFloat.float)
  (df : Np.DataFrame) (m : MetricKind) :
  (m = MEbitda -> Np.has_OPEX df = true) ->
  exists pct,
    Np.overall_metric fsum (metric_name m) df =
      Ok ([Np.metric_expr m (Np.series_sum fsum (Np.col Np.Revenue df))
                            (Np.series_sum fsum (Np.col Np.COGS df))
                            (Np.series_sum fsum (Np.col Np.OPEX df))],
          [pct])
    /\ (m <> MRevenue ->
        pct = Np.guarded_ratio
                (Np.metric_expr m
                   (Np.series_sum fsum (Np.col Np.Revenue df))
                   (Np.series_sum fsum (Np.col Np.COGS df))
                   (Np.series_sum fsum (Np.col Np.OPEX df)))
                (Np.series_sum fsum (Np.col Np.Revenue df))).
Proof.
  intros H. destruct m; unfold Np.overall_metric, Np.col_OPEX;
    cbn [metric_name String.eqb Ascii.eqb Bool.eqb].
  - eexists. split; [reflexivity | congruence].
  - eexists. split; reflexivity.
  - rewrite (H eq_refl). cbn [bind]. eexists. split; reflexivity.
Qed.

(** The test [total > 0], read off the value. *)
Lemma gt0_false (total : Np.num) :
  match total with
  | Np.Int64 z => (z <= 0)%Z
  | Np.Float64 f => PrimFloat.ltb PrimFloat.zero f = false
  end ->
  Np.gt0 total = false.
Proof.
  destruct total as [z|f]; simpl; [|auto].
  intros H. apply Z.ltb_ge. exact H.
Qed.

Lemma gt0_true (total : Np.num) :
  match total with
  | Np.Int64 z => (0 < z)%Z
  | Np.Float64 f => PrimFloat.ltb PrimFloat.zero f = true
  end ->
  Np.gt0 total = true.
Proof.
  destruct total as [z|f]; simpl; [|auto].
  intros H. apply Z.ltb_lt. exact H.
Qed.

(** ** int64 wrap-around

    [wrap64] picks the representative of a class modulo 2^64, so sums and
    differences can be wrapped at any stage. *)





















(* ================================================================== *)
(** * Claims that rest on the arithmetic *)
(* ================================================================== *)

Section TypedClaims.
Import PrimFloat.

(** C3.  In a filtered call (a customer and/or a project was supplied and
    resolved) for gross_margin or ebitda, the values are the row values of
    the metric over the narrowed rows and the percentage of each row is
    the float64 quotient of its value by its Revenue, with no guard: on a
    row of float64 amounts [b], [k], [o] it is [(b - k) / b] (for ebitda
    [(b - k - o) / b]), on a row of int64 amounts the difference is taken
    in int64 and both sides are cast before dividing; and a row whose
    Revenue is zero (the integer 0, or a float zero of either sign) gets a
    percentage that is not finite, an infinity or NaN.  In the unfiltered
    call the total Revenue is the sum pandas computes for the column, and
    the percentage is the integer 0 as soon as that total is not strictly
    positive (the float64 quotient of value by total otherwise).  For
    ebitda the frame must have its OPEX column (without it the call
    raises). *)
Theorem C3_percentage_guard_asymmetry
  (similarity : string -> string -> Z)
  (fsum : list PrimFloat.float -> PrimFloat.float)
  (df df1 df2 : Np.DataFrame) (metric : string) (m : MetricKind)
  (c p c' p' : option string) :
  Np.well_formed df = true ->
  lower metric = metric_name m ->
  m = MGrossMargin \/ (m = MEbitda /\ Np.has_OPEX df = true) ->
  Np.narrow similarity "customer" Np.CustomerName c df = Ok (c', df1) ->
  Np.narrow similarity "project" Np.ProjectName p df1 = Ok (p', df2) ->
  (truthy c || truthy p = true ->
     Np.get_data similarity fsum df metric c p
     = Ok (map (Np.row_metric m) (Np.rows df2),
           map (fun r =>
                  Np.Float64
                    (PrimFloat.div (Np.to_float (Np.row_metric m r))
                                   (Np.to_float (Np.Revenue r))))
               (Np.rows df2))
     /\ (forall r, In r (Np.rows df2) ->
           match Np.Revenue r with
           | Np.Int64 z => z = 0%Z
           | Np.Float64 f => PrimFloat.eqb f PrimFloat.zero = true
           end ->
           PrimFloat.is_finite
             (PrimFloat.div (Np.to_float (Np.row_metric m r))
                            (Np.to_float (Np.Revenue r))) = false)
     /\ (forall r b k o, In r (Np.rows df2) ->
           Np.Revenue r = Np.Float64 b -> Np.COGS r = Np.Float64 k ->
           Np.OPEX r = Np.Float64 o ->
           PrimFloat.div (Np.to_float (Np.row_metric m r))
                         (Np.to_float (Np.Revenue r))
           = PrimFloat.div
               (match m with
                | MEbitda => PrimFloat.sub (PrimFloat.sub b k) o
                | _ => PrimFloat.sub b k
                end) b)
     /\ (forall r b k o, In r (Np.rows df2) ->
           Np.Revenue r = Np.Int64 b -> Np.COGS r = Np.Int64 k ->
           Np.OPEX r = Np.Int64 o ->
           PrimFloat.div (Np.to_float (Np.row_metric m r))
                         (Np.to_float (Np.Revenue r))
           = PrimFloat.div
               (Np.of_int64
                  (match m with
                   | MEbitda => Np.wrap64 (Np.wrap64 (b - k) - o)
                   | _ => Np.wrap64 (b - k)
                   end))
               (Np.of_int64 b)))
  /\ (truthy c || truthy p = false ->
      let total := Np.series_sum fsum (Np.col Np.Revenue df) in
      let v := Np.metric_expr m total
                 (Np.series_sum fsum (Np.col Np.COGS df))
                 (Np.series_sum fsum (Np.col Np.OPEX df)) in
      (match total with
       | Np.Int64 z => (z <= 0)%Z
       | Np.Float64 f => PrimFloat.ltb PrimFloat.zero f = false
       end ->
       Np.get_data similarity fsum df metric c p
       = Ok ([v], [Np.Int64 0]))
      /\ (match total with
          | Np.Int64 z => (0 < z)%Z
          | Np.Float64 f => PrimFloat.ltb PrimFloat.zero f = true
          end ->
          Np.get_data similarity fsum df metric c p
          = Ok ([v],
                [Np.Float64
                   (PrimFloat.div (Np.to_float v) (Np.to_float total))]))).
Proof.
  intros W M Hm H1 H2.
  destruct (typed_narrow_preserves similarity _ _ _ _ _ _
              (or_introl eq_refl) W H1) as (T1 & W1 & O1).
  destruct (typed_narrow_preserves similarity _ _ _ _ _ _
              (or_intror eq_refl) W1 H2) as (T2 & W2 & O2).
  assert (m <> MRevenue) as NR by (destruct Hm as [->|[-> _]]; discriminate).
  assert (forall d, Np.has_OPEX d = Np.has_OPEX df ->
                    m = MEbitda -> Np.has_OPEX d = true) as HO.
  { intros d Hd E. rewrite Hd. destruct Hm as [->|[_ H]]; [discriminate|auto]. }
  rewrite (typed_get_data_steps _ _ _ _ _ _ _ _ _ _ H1 H2), M, T1, T2.
  split; intros T.
  - assert (negb (truthy c) && negb (truthy p) = false) as ->.
    { destruct (truthy c), (truthy p); simpl in *; congruence. }
    destruct (typed_per_row_value df2 m) as (pcts & E & Hp).
    { apply HO. congruence. }
    rewrite E, (Hp NR). split; [reflexivity|]. split; [|split].
    + intros r _ Hr. apply div_by_zero_not_finite.
      destruct (Np.Revenue r) as [z|f]; [subst z; reflexivity | exact Hr].
    + intros r b k o _ Hb Hk Ho. unfold Np.row_metric.
      rewrite Hb, Hk, Ho.
      destruct Hm as [->|[-> _]]; reflexivity.
    + intros r b k o _ Hb Hk Ho. unfold Np.row_metric.
      rewrite Hb, Hk, Ho.
      destruct Hm as [->|[-> _]]; reflexivity.
  - apply orb_false_iff in T. destruct T as [Tc Tp].
    rewrite Tc, Tp. cbn [negb andb].
    rewrite typed_narrow_falsy in H1 by exact Tc. inversion H1; subst c' df1.
    rewrite typed_narrow_falsy in H2 by exact Tp. inversion H2; subst p' df2.
    destruct (typed_overall_value fsum df m) as (pct & E & Hp).
    { apply HO. reflexivity. }
    rewrite E, (Hp NR). cbv zeta. unfold Np.guarded_ratio.
    split; intros Ht.
    + now rewrite (gt0_false _ Ht).
    + now rewrite (gt0_true _ Ht).
Qed.

Lemma C3_percentage_guard_asymmetry_witness :
  Np.get_data caseless_similarity Np.seq_sum float_ledger "gross_margin"
    (Some "Beta") None
  = Ok ([Np.Float64 (-5); Np.Float64 (-5); Np.Float64 0],
        [Np.Float64 neg_infinity; Np.Float64 infinity; Np.Float64 nan])
  /\ Np.get_data caseless_similarity Np.seq_sum refund_ledger "ebitda"
       None None
     = Ok ([Np.Float64 (-14)], [Np.Int64 0])
  /\ Np.get_data caseless_similarity Np.seq_sum int_ledger "gross_margin"
       (Some "Acme") None
     = Ok ([Np.Int64 60; Np.Int64 40],
           [Np.Float64 0x1.3333333333333p-1;
            Np.Float64 0x1.999999999999ap-1])
  /\ Np.get_data caseless_similarity Np.seq_sum int_ledger "ebitda"
       None (Some "Web")
     = Ok ([Np.Int64 50; Np.Int64 (-6)],
           [Np.Float64 0.5; Np.Float64 neg_infinity])
  /\ Np.get_data caseless_similarity Np.seq_sum int_ledger "ebitda"
       None None
     = Ok ([Np.Int64 79], [Np.Float64 0x1.0da740da740dap-1])
  /\ Np.get_data caseless_similarity Np.seq_sum gap_ledger "gross_margin"
       None None
     = Ok ([Np.Float64 10], [Np.Float64 0x1.999999999999ap-3])
  /\ Np.get_data caseless_similarity Np.seq_sum mixed_ledger "gross_margin"
       (Some "Acme") None
     = Ok ([Np.Float64 59.5], [Np.Float64 0x1.30a3d70a3d70ap-1]).
Proof.
  split; [|split; [|split; [|split; [|split; [|split]]]]].
  - destruct (C3_percentage_guard_asymmetry caseless_similarity Np.seq_sum
                float_ledger (Np.loc_eq Np.CustomerName "Beta" float_ledger)
                (Np.loc_eq Np.CustomerName "Beta" float_ledger)
                "gross_margin" MGrossMargin (Some "Beta") None
                (Some "Beta") None
                eq_refl eq_refl (or_introl eq_refl) eq_refl eq_refl)
      as [H _].
    destruct (H eq_refl) as [E _]. rewrite E. reflexivity.
  - destruct (C3_percentage_guard_asymmetry caseless_similarity Np.seq_sum
                refund_ledger refund_ledger refund_ledger
                "ebitda" MEbitda None None None None
                eq_refl eq_refl (or_intror (conj eq_refl eq_refl))
                eq_refl eq_refl)
      as [_ H].
    destruct (H eq_refl) as [E _]. rewrite E; reflexivity.
  - destruct (C3_percentage_guard_asymmetry caseless_similarity Np.seq_sum
                int_ledger (Np.loc_eq Np.CustomerName "Acme" int_ledger)
                (Np.loc_eq Np.CustomerName "Acme" int_ledger)
                "gross_margin" MGrossMargin (Some "Acme") None
                (Some "Acme") None
                eq_refl eq_refl (or_introl eq_refl) eq_refl eq_refl)
      as [H _].
    destruct (H eq_refl) as [E _]. rewrite E. reflexivity.
  - destruct (C3_percentage_guard_asymmetry caseless_similarity Np.seq_sum
                int_ledger int_ledger
                (Np.loc_eq Np.ProjectName "Web" int_ledger)
                "ebitda" MEbitda None (Some "Web") None (Some "Web")
                eq_refl eq_refl (or_intror (conj eq_refl eq_refl))
                eq_refl eq_refl)
      as [H _].
    destruct (H eq_refl) as [E _]. rewrite E. reflexivity.
  - destruct (C3_percentage_guard_asymmetry caseless_similarity Np.seq_sum
                int_ledger int_ledger int_ledger
                "ebitda" MEbitda None None None None
                eq_refl eq_refl (or_intror (conj eq_refl eq_refl))
                eq_refl eq_refl)
      as [_ H].
    destruct (H eq_refl) as [_ E]. rewrite E; reflexivity.
  - destruct (C3_percentage_guard_asymmetry caseless_similarity Np.seq_sum
                gap_ledger gap_ledger gap_ledger
                "gross_margin" MGrossMargin None None None None
                eq_refl eq_refl (or_introl eq_refl) eq_refl eq_refl)
      as [_ H].
    destruct (H eq_refl) as [_ E]. rewrite E; reflexivity.
  - destruct (C3_percentage_guard_asymmetry caseless_similarity Np.seq_sum
                mixed_ledger (Np.loc_eq Np.CustomerName "Acme" mixed_ledger)
                (Np.loc_eq Np.CustomerName "Acme" mixed_ledger)
                "gross_margin" MGrossMargin (Some "Acme") None
                (Some "Acme") None
                eq_refl eq_refl (or_introl eq_refl) eq_refl eq_refl)
      as [H _].
    destruct (H eq_refl) as [E _]. rewrite E. reflexivity.
Defined.




End TypedClaims.
